(** * JSON-RAG-AST-Generator: extraction and rebuilding of definitions

    A shallow embedding of [json_rag_ast_generator.py]: the extractor
    ([ExtractASTDefinitions]) walks a parsed syntax tree and builds nested
    dictionaries; the rebuilder ([DefinitionRebuilder]) turns such a
    dictionary back into source text, copies the original file when the
    dictionary remembers its path, and can execute the rebuilt text.

    Python values are dynamic, so dictionaries are kept as the program has
    them: insertion-ordered association lists with string keys.  The parser,
    the unparser, the JSON codec and the evaluator are collaborators of the
    program and appear as section variables. *)

From Stdlib Require Import ZArith Ascii String List Sorting.Sorted Permutation.
From stdpp Require Import base option list gmap strings.
From stdpp Require Import pretty.

Set Warnings "-register-all,-clear-no-such-hyp".

Local Open Scope string_scope.
Local Open Scope list_scope.
Local Open Scope Z_scope.

(** * The program *)

(** ** Characters and text *)

Module Chars.
Definition TAB : ascii := "009"%char.
Definition LF : ascii := "010"%char.
Definition VT : ascii := "011"%char.
Definition FF : ascii := "012"%char.
Definition CR : ascii := "013"%char.
Definition FS : ascii := "028"%char.
Definition GS : ascii := "029"%char.
Definition RS : ascii := "030"%char.
Definition SPACE : ascii := " "%char.
Definition NEL : ascii := "133"%char.
End Chars.
Import Chars.

(** Python text is modelled as a [string] whose characters are the code
    points below 256 (files are read through a one-byte-per-character
    codec). *)

Definition is_char (a b : ascii) : bool := Ascii.eqb a b.

(** The boundaries [str.splitlines] breaks a line at (code points below
    256). *)
Definition is_linebreak (c : ascii) : bool :=
  is_char c LF || is_char c CR || is_char c VT || is_char c FF ||
  is_char c FS || is_char c GS || is_char c RS || is_char c NEL.

(** [str.splitlines()]: the lines without their terminators; CR LF is one
    terminator; a terminator at the very end opens no further line. *)
Fixpoint splitlines (s : string) : list string :=
  match s with
  | EmptyString => []
  | String c s' =>
      if is_linebreak c then
        match s' with
        | String c' s'' =>
            if is_char c CR && is_char c' LF
            then EmptyString :: splitlines s''
            else EmptyString :: splitlines s'
        | EmptyString => [EmptyString]
        end
      else
        match splitlines s' with
        | [] => [String c EmptyString]
        | l :: ls => String c l :: ls
        end
  end.

(** [str.split(LF)]: always at least one piece. *)
Fixpoint split_lf (s : string) : list string :=
  match s with
  | EmptyString => [EmptyString]
  | String c s' =>
      if is_char c LF then EmptyString :: split_lf s'
      else match split_lf s' with
           | [] => [String c EmptyString]
           | l :: ls => String c l :: ls
           end
  end.

(** [sep.join(pieces)] on strings. *)
Fixpoint join (sep : string) (pieces : list string) : string :=
  match pieces with
  | [] => EmptyString
  | [p] => p
  | p :: ps => p +:+ sep +:+ join sep ps
  end.

Fixpoint spaces (n : nat) : string :=
  match n with
  | O => EmptyString
  | S n' => String SPACE (spaces n')
  end.

(** [str.expandtabs()] with the default tab size 8; the column starts again
    after LF and CR. *)
Fixpoint expandtabs_from (col : nat) (s : string) : string :=
  match s with
  | EmptyString => EmptyString
  | String c s' =>
      if is_char c TAB then
        let incr := (8 - col mod 8)%nat in
        spaces incr +:+ expandtabs_from (col + incr) s'
      else if is_char c LF || is_char c CR then
        String c (expandtabs_from 0 s')
      else String c (expandtabs_from (S col) s')
  end.

Definition expandtabs (s : string) : string := expandtabs_from 0 s.

(** [line.lstrip(' ')]. *)
Fixpoint lstrip_spaces (s : string) : string :=
  match s with
  | String c s' => if is_char c SPACE then lstrip_spaces s' else s
  | EmptyString => EmptyString
  end.

(** [line[n:]]. *)
Fixpoint drop_chars (n : nat) (s : string) : string :=
  match n, s with
  | S n', String _ s' => drop_chars n' s'
  | _, _ => s
  end.

Definition is_empty (s : string) : bool :=
  match s with EmptyString => true | _ => false end.

(** ** [inspect.cleandoc]

    The cleaning [ast.get_docstring] applies by default ([clean=True]), as in
    CPython 3.13 and later (earlier versions strip every leading whitespace
    character where this one strips spaces; tabs are expanded first in
    both). *)

(** The smallest indentation of the non-blank lines, [None] standing for
    [sys.maxsize] (no such line). *)
Fixpoint margin_of (lines : list string) : option nat :=
  match lines with
  | [] => None
  | line :: rest =>
      let content := String.length (lstrip_spaces line) in
      if (content =? 0)%nat then margin_of rest
      else
        let indent := (String.length line - content)%nat in
        match margin_of rest with
        | None => Some indent
        | Some m => Some (Nat.min m indent)
        end
  end.

(** [while lines and not lines[0]: lines.pop(0)]. *)
Fixpoint drop_leading_blank (lines : list string) : list string :=
  match lines with
  | l :: ls => if is_empty l then drop_leading_blank ls else lines
  | [] => []
  end.

(** [while lines and not lines[-1]: lines.pop()]. *)
Definition drop_trailing_blank (lines : list string) : list string :=
  rev (drop_leading_blank (rev lines)).

Definition cleandoc (doc : string) : string :=
  let lines := split_lf (expandtabs doc) in
  let margin := margin_of (tail lines) in
  let lines :=
    match lines with
    | first :: rest =>
        lstrip_spaces first ::
          match margin with
          | Some m => map (drop_chars m) rest
          | None => rest
          end
    | [] => []
    end in
  let lines := drop_trailing_blank lines in
  let lines := drop_leading_blank lines in
  join (String LF EmptyString) lines.

(** ** Python values

    The values the program builds and the JSON decoder returns: [None],
    booleans, integers, text, lists and dictionaries.  A dictionary keeps its
    keys in insertion order; assigning to a key that is present replaces the
    value where the key already stands.  Floating-point numbers are left out:
    every number of the schema is an integer. *)

Inductive pyval : Type :=
| PNone
| PBool (b : bool)
| PInt (z : Z)
| PStr (s : string)
| PList (items : list pyval)
| PDict (entries : list (string * pyval)).

Abbreviation pydict := (list (string * pyval)).

(** [d.get(k)] as an option ([k in d] is [is_Some]). *)
Fixpoint dict_get (k : string) (d : pydict) : option pyval :=
  match d with
  | [] => None
  | (k', v) :: d' => if decide (k = k') then Some v else dict_get k d'
  end.

(** [d[k] = v]. *)
Fixpoint dict_set (k : string) (v : pyval) (d : pydict) : pydict :=
  match d with
  | [] => [(k, v)]
  | (k', v') :: d' =>
      if decide (k = k') then (k', v) :: d' else (k', v') :: dict_set k v d'
  end.

(** An update in place of the object stored under [k]. *)
Fixpoint dict_alter (f : pyval -> pyval) (k : string) (d : pydict) : pydict :=
  match d with
  | [] => []
  | (k', v) :: d' =>
      if decide (k = k') then (k', f v) :: d' else (k', v) :: dict_alter f k d'
  end.

(** [obj.append(x)] on a list object. *)
Definition list_append (x : pyval) (obj : pyval) : pyval :=
  match obj with
  | PList items => PList (items ++ [x])
  | _ => obj
  end.

(** [obj[k] = x] on a dictionary object. *)
Definition setitem (k : string) (x : pyval) (obj : pyval) : pyval :=
  match obj with
  | PDict entries => PDict (dict_set k x entries)
  | _ => obj
  end.

Definition dict_keys (d : pydict) : list string := map fst d.
Definition dict_values (d : pydict) : list pyval := map snd d.

(** ** Syntax trees

    The part of Python's [ast] the extractor looks at: the module, the three
    kinds of definition with their name, body and position, expression
    statements (a docstring is one), and the other statements.  [If] stands
    for the compound statements that are not definitions; what only the
    unparser reads (arguments, bases, decorators) is not represented.
    [end_lineno] is the attribute of that name: every statement node has it
    (on the interpreters that have [ast.unparse]), [None] when the node has
    no end position; the nodes [ast.parse] returns have one. *)

Inductive constant : Type :=
| CStr (s : string)
| CBytes (s : string)
| CInt (z : Z)
| CBool (b : bool)
| CNone
| CEllipsis.

Inductive expr : Type :=
| Constant (value : constant)
| OtherExpr (kind : string).

Inductive AST : Type :=
| Module (body : list AST)
| ClassDef (name : string) (body : list AST) (lineno : Z) (end_lineno : option Z)
| FunctionDef (name : string) (body : list AST) (lineno : Z) (end_lineno : option Z)
| AsyncFunctionDef (name : string) (body : list AST) (lineno : Z)
    (end_lineno : option Z)
| Expr (value : expr)
| If (body orelse : list AST)
| OtherStmt (kind : string).

(** [isinstance(item, (ast.FunctionDef, ast.AsyncFunctionDef))]. *)
Definition is_function (item : AST) : bool :=
  match item with
  | FunctionDef _ _ _ _ | AsyncFunctionDef _ _ _ _ => true
  | _ => false
  end.

(** [isinstance(item, ast.ClassDef)]. *)
Definition is_class (item : AST) : bool :=
  match item with
  | ClassDef _ _ _ _ => true
  | _ => false
  end.

(** [isinstance(item, (ast.ClassDef, ast.FunctionDef, ast.AsyncFunctionDef))]. *)
Definition is_definition (item : AST) : bool := is_class item || is_function item.

(** [item.name] of a definition. *)
Definition node_name (item : AST) : string :=
  match item with
  | ClassDef name _ _ _ | FunctionDef name _ _ _ | AsyncFunctionDef name _ _ _ => name
  | _ => EmptyString
  end.

Definition node_body (item : AST) : list AST :=
  match item with
  | Module body => body
  | ClassDef _ body _ _ | FunctionDef _ body _ _ | AsyncFunctionDef _ body _ _ => body
  | _ => []
  end.

Definition node_lineno (item : AST) : Z :=
  match item with
  | ClassDef _ _ l _ | FunctionDef _ _ l _ | AsyncFunctionDef _ _ l _ => l
  | _ => 0
  end.

Definition node_end_lineno (item : AST) : option Z :=
  match item with
  | ClassDef _ _ _ e | FunctionDef _ _ _ e | AsyncFunctionDef _ _ _ e => e
  | _ => None
  end.

(** [getattr(node, "end_lineno", node.lineno)]: the attribute is there on
    every node, so what comes back is its value, [None] included; the
    default is never taken. *)
Definition getattr_end_lineno (end_lineno : option Z) (lineno : Z) : pyval :=
  match end_lineno with
  | Some e => PInt e
  | None => PNone
  end.

(** [ast.get_docstring(node)] on a definition, from its body: the first
    statement when it is an expression statement holding a text constant,
    cleaned; [None] otherwise. *)
Definition get_docstring (body : list AST) : option string :=
  match body with
  | Expr (Constant (CStr text)) :: _ => Some (cleandoc text)
  | _ => None
  end.

(** Truth value of what [get_docstring] returns: [None] and the empty text
    are false. *)
Definition truthy_text (o : option string) : bool :=
  match o with
  | Some s => negb (is_empty s)
  | None => false
  end.

(** ** The extractor *)

Section Extractor.

(** [ast.unparse], the unparser of the host. *)
Variable unparse : AST -> string.

(** The loop over [node.body] of [process_class] and [process_function]. *)
Definition collect_members (process_node : AST -> pyval)
    (output : pydict) (item : AST) : pydict :=
  if is_function item then
    dict_alter (list_append (process_node item)) "functions" output
  else if is_class item then
    dict_alter (list_append (process_node item)) "classes" output
  else output.

(** [process_class] and [process_function] get the node and, beside it, its
    fields [node.body], [node.lineno] and [node.end_lineno]. *)
Definition process_class (process_node : AST -> pyval)
    (node : AST) (body : list AST) (lineno : Z) (end_lineno : option Z) : pyval :=
  let output := [] in
  let output := dict_set "functionDefinition" (PStr (unparse node)) output in
  let docstring := get_docstring body in
  let output :=
    if truthy_text docstring
    then dict_set "docstring" (PStr (default EmptyString docstring)) output
    else output in
  let output := dict_set "functions" (PList []) output in
  let output := dict_set "summary" (PList []) output in
  let output := dict_set "classes" (PList []) output in
  let output := fold_left (collect_members process_node) body output in
  let output := dict_set "startLine" (PInt lineno) output in
  let output := dict_set "endLine" (getattr_end_lineno end_lineno lineno) output in
  PDict output.

Definition process_function (process_node : AST -> pyval)
    (node : AST) (body : list AST) (lineno : Z) (end_lineno : option Z) : pyval :=
  let output := [] in
  let output := dict_set "functionDefinition" (PStr (unparse node)) output in
  let docstring := get_docstring body in
  let output :=
    if truthy_text docstring
    then dict_set "docstring" (PStr (default EmptyString docstring)) output
    else output in
  let output := dict_set "functions" (PList []) output in
  let output := dict_set "summary" (PList []) output in
  let output := dict_set "classes" (PList []) output in
  let output := fold_left (collect_members process_node) body output in
  let output := dict_set "startLine" (PInt lineno) output in
  let output := dict_set "endLine" (getattr_end_lineno end_lineno lineno) output in
  PDict output.

(** The loop over [node.body] of [process_module]. *)
Definition collect_definitions (process_node : AST -> pyval)
    (output : pydict) (item : AST) : pydict :=
  if is_definition item then
    dict_alter (setitem (node_name item) (process_node item)) "module" output
  else output.

(** [if file_path:] holds for a path that is given and not empty. *)
Definition process_module (process_node : AST -> pyval)
    (body : list AST) (code_string : string) (file_path : option string) : pyval :=
  let output := [] in
  let output := dict_set "summary" (PList []) output in
  let output :=
    if truthy_text file_path
    then dict_set "file" (PStr (default EmptyString file_path)) output
    else output in
  let output := dict_set "module" (PDict []) output in
  let output := fold_left (collect_definitions process_node) body output in
  let output := dict_set "startLine" (PInt 1) output in
  let output :=
    dict_set "endLine" (PInt (Z.of_nat (length (splitlines code_string)))) output in
  PDict output.

(** [process_node]: the dispatch on the kind of node.  The calls the
    program makes on the members of a definition pass no file path. *)
Fixpoint process_node (node : AST) (code_string : string)
    (file_path : option string) {struct node} : pyval :=
  match node with
  | Module body =>
      process_module (fun item => process_node item code_string None)
        body code_string file_path
  | ClassDef _ body lineno end_lineno =>
      process_class (fun item => process_node item code_string None)
        node body lineno end_lineno
  | FunctionDef _ body lineno end_lineno
  | AsyncFunctionDef _ body lineno end_lineno =>
      process_function (fun item => process_node item code_string None)
        node body lineno end_lineno
  | _ => PDict []
  end.

End Extractor.

(** ** Exceptions

    [is_Exception] tells the classes an [except Exception] clause catches
    from those that derive from [BaseException] only. *)

Inductive exn_class : Type :=
| FileNotFoundError
| JSONDecodeError
| SyntaxError
| TypeError
| AttributeError
| KeyError
| RuntimeError
| SystemExit
| KeyboardInterrupt
| GeneratorExit
| OtherException (name : string)
| OtherBaseException (name : string).

Definition is_Exception (c : exn_class) : bool :=
  match c with
  | SystemExit | KeyboardInterrupt | GeneratorExit | OtherBaseException _ => false
  | _ => true
  end.

(** An exception object: its class and the message it was raised with.
    The errors the modelled operations raise themselves carry no message: the
    program never reads it. *)
Record exn : Type := Exn { exn_cls : exn_class; exn_str : string }.

Inductive result (A : Type) : Type :=
| Val (a : A)
| Raise (e : exn).
Arguments Val {A} a.
Arguments Raise {A} e.

Definition raise {A : Type} (c : exn_class) : result A := Raise (Exn c EmptyString).

#[global] Instance result_ret : MRet result := fun A a => Val a.
#[global] Instance result_bind : MBind result := fun A B f m =>
  match m with
  | Val a => f a
  | Raise e => Raise e
  end.

(** A loop whose body may raise. *)
Fixpoint foldM {A B : Type} (f : B -> A -> result B) (acc : B) (l : list A) : result B :=
  match l with
  | [] => Val acc
  | x :: l' => acc' ← f acc x; foldM f acc' l'
  end.

(** ** Operations on dynamic values *)

Fixpoint is_prefix (p s : string) : bool :=
  match p, s with
  | EmptyString, _ => true
  | String a p', String b s' => is_char a b && is_prefix p' s'
  | String _ _, EmptyString => false
  end.

(** [p in s] on text. *)
Fixpoint is_infix (p s : string) : bool :=
  is_prefix p s ||
  match s with
  | String _ s' => is_infix p s'
  | EmptyString => false
  end.

Definition is_str (key : string) (v : pyval) : bool :=
  match v with
  | PStr s => bool_decide (s = key)
  | _ => false
  end.

(** [key in obj] for a text [key]: key membership in a dictionary, element
    membership in a list, substring in a text; the other values are not
    iterable. *)
Definition py_contains (key : string) (obj : pyval) : result bool :=
  match obj with
  | PDict d => Val (bool_decide (is_Some (dict_get key d)))
  | PList items => Val (existsb (is_str key) items)
  | PStr s => Val (is_infix key s)
  | _ => raise TypeError
  end.

(** [obj[key]] for a text [key]. *)
Definition py_getitem (obj : pyval) (key : string) : result pyval :=
  match obj with
  | PDict d =>
      match dict_get key d with
      | Some v => Val v
      | None => raise KeyError
      end
  | _ => raise TypeError
  end.

(** [obj.values()]. *)
Definition py_values (obj : pyval) : result (list pyval) :=
  match obj with
  | PDict d => Val (dict_values d)
  | _ => raise AttributeError
  end.

(** [obj.get(key, dflt)]. *)
Definition py_get (obj : pyval) (key : string) (dflt : pyval) : result pyval :=
  match obj with
  | PDict d => Val (default dflt (dict_get key d))
  | _ => raise AttributeError
  end.

(** The integer a value counts as in a comparison ([bool] is a subclass of
    [int]). *)
Definition as_int (v : pyval) : option Z :=
  match v with
  | PInt z => Some z
  | PBool b => Some (Z.b2z b)
  | _ => None
  end.

Fixpoint str_ltb (s t : string) : bool :=
  match s, t with
  | _, EmptyString => false
  | EmptyString, String _ _ => true
  | String a s', String b t' =>
      if is_char a b then str_ltb s' t'
      else (nat_of_ascii a <? nat_of_ascii b)%nat
  end.

(** [a < b]: integers among themselves and texts among themselves; [None],
    dictionaries and mixed kinds raise [TypeError].  (Python also orders
    lists; a list as sort key is outside the modelled fragment and is
    reported as [TypeError] too.) *)
Definition py_lt (a b : pyval) : result bool :=
  match as_int a, as_int b with
  | Some x, Some y => Val (x <? y)
  | _, _ =>
      match a, b with
      | PStr s, PStr t => Val (str_ltb s t)
      | _, _ => raise TypeError
      end
  end.

(** One step of the sort: [x] goes before the first element it is smaller
    than, so after every element that is not greater. *)
Fixpoint insert_by_key (x : pyval * pyval) (l : list (pyval * pyval))
    : result (list (pyval * pyval)) :=
  match l with
  | [] => Val [x]
  | y :: l' =>
      b ← py_lt (fst x) (fst y);
      if b : bool then Val (x :: l)
      else l'' ← insert_by_key x l'; Val (y :: l'')
  end.

(** [sorted(l, key=key)]: every key is computed first, then the elements
    are put in order with [<] on the keys, equal keys staying in their
    order.  Python's sort is stable, so it returns this list whenever the
    keys can be compared with one another; with fewer than two elements
    nothing is compared. *)
Definition py_sorted (key : pyval -> result pyval) (l : list pyval)
    : result (list pyval) :=
  keyed ← mapM (fun d => k ← key d; Val (k, d)) l;
  ordered ← foldM (fun acc x => insert_by_key x acc) [] keyed;
  Val (map snd ordered).

Definition as_str (v : pyval) : result string :=
  match v with
  | PStr s => Val s
  | _ => raise TypeError
  end.

(** [sep.join(items)]: every item must be a text. *)
Definition py_join (sep : string) (items : list pyval) : result string :=
  pieces ← mapM as_str items; Val (join sep pieces).

(** ** The rebuilder *)

Definition blank_line : string := String LF (String LF EmptyString).

(** The [if "functionDefinition" in d: ... elif "defString" in d: ...]
    of [rebuild_from_json], which the code has once in the loop and once for
    a single definition. *)
Definition append_text (rebuilt_lines : list pyval) (d : pyval) : result (list pyval) :=
  has_text ← py_contains "functionDefinition" d;
  if has_text : bool then
    text ← py_getitem d "functionDefinition"; Val (rebuilt_lines ++ [text])
  else
    has_legacy ← py_contains "defString" d;
    if has_legacy : bool then
      text ← py_getitem d "defString"; Val (rebuilt_lines ++ [text])
    else Val rebuilt_lines.

(** The body of [rebuild_from_json] after the decoding of its argument. *)
Definition rebuild_from_data (data : pyval) : result string :=
  let rebuilt_lines := [] in
  has_module ← py_contains "module" data;
  rebuilt_lines ←
    (if has_module : bool then
       module ← py_getitem data "module";
       defs ← py_values module;
       defs_sorted ← py_sorted (fun d => py_get d "startLine" (PInt 0)) defs;
       foldM append_text rebuilt_lines defs_sorted
     else append_text rebuilt_lines data);
  py_join blank_line rebuilt_lines.

Section Rebuilder.

(** [json.loads] of the host; a text that is not well-formed makes it raise
    [JSONDecodeError]. *)
Variable json_loads : string -> result pyval.

Definition rebuild_from_json (json_string : string) : result string :=
  data ← json_loads json_string;
  rebuild_from_data data.

(** The evaluator of the host: [compile(source, '<reconstructed>', 'exec')]
    and [exec(code, namespace)], which fills the namespace it is given. *)
Variable object : Type.
Variable code : Type.
Variable py_compile : string -> result code.
Variable py_exec : code -> list (string * object) -> result (list (string * object)).

(** [str(e)] of the host, as the f-string of the handler takes it: it runs
    [e.__str__], which may raise in its turn. *)
Variable py_str : exn -> result string.

Definition execution_error (message : string) : exn :=
  Exn RuntimeError ("Error executing rebuilt source code: " +:+ message).

Definition execute_rebuilt (json_string : string) : result (list (string * object)) :=
  source_code ← rebuild_from_json json_string;
  let namespace := [] in
  match compiled_code ← py_compile source_code; py_exec compiled_code namespace with
  | Val namespace => Val namespace
  | Raise e =>
      if is_Exception (exn_cls e) then
        message ← py_str e;
        Raise (execution_error message)
      else Raise e
  end.

End Rebuilder.

(** ** Files

    A file system maps a path to the bytes stored there.  The program opens
    every file in text mode: reading turns CR LF and a lone CR into LF
    (universal newlines), writing turns LF into the line separator of the
    host.  The model follows the calls the host lets through: a file that is
    there is read whole, and a write replaces the file at its path.  What a
    host may refuse besides (a path it cannot open for writing, bytes or
    characters its encoding has no place for) is outside the model, and for
    the error that refuses a path where no file is, whatever its class,
    stands [FileNotFoundError]. *)

Abbreviation filesystem := (gmap string string).

Definition io (A : Type) : Type := filesystem -> result A * filesystem.

#[global] Instance io_ret : MRet io := fun A a fs => (Val a, fs).
#[global] Instance io_bind : MBind io := fun A B f m fs =>
  match m fs with
  | (Val a, fs') => f a fs'
  | (Raise e, fs') => (Raise e, fs')
  end.

Definition lift {A : Type} (r : result A) : io A := fun fs => (r, fs).

(** What a text-mode [read()] makes of the stored bytes. *)
Fixpoint universal_newlines (s : string) : string :=
  match s with
  | EmptyString => EmptyString
  | String c s' =>
      if is_char c CR then
        match s' with
        | String c' s'' =>
            if is_char c' LF then String LF (universal_newlines s'')
            else String LF (universal_newlines s')
        | EmptyString => String LF EmptyString
        end
      else String c (universal_newlines s')
  end.

(** What a text-mode [write()] stores for a text. *)
Fixpoint translate_newlines (os_linesep : string) (s : string) : string :=
  match s with
  | EmptyString => EmptyString
  | String c s' =>
      if is_char c LF then os_linesep +:+ translate_newlines os_linesep s'
      else String c (translate_newlines os_linesep s')
  end.

(** [with open(path, "r") as f: f.read()]. *)
Definition read_text (path : string) : io string := fun fs =>
  match fs !! path with
  | Some bytes => (Val (universal_newlines bytes), fs)
  | None => (raise FileNotFoundError, fs)
  end.

(** [open(path, "r")] on a dynamic value: a path must be a text.  (An
    integer would name a file descriptor, which the model does not have.) *)
Definition open_read (path : pyval) : io string :=
  match path with
  | PStr p => read_text p
  | _ => lift (raise TypeError)
  end.

Section Files.

(** [os.linesep] of the host. *)
Variable os_linesep : string.

(** [with open(path, "w") as f: f.write(text)]. *)
Definition write_text (path : string) (text : string) : io unit := fun fs =>
  (Val tt, <[path := translate_newlines os_linesep text]> fs).

(** [ast.parse], [ast.unparse], [json.loads] and [json.dumps] of the host;
    [json_dumps] takes the [indent] argument, [None] when the call gives
    none. *)
Variable ast_parse : string -> result AST.
Variable unparse : AST -> string.
Variable json_loads : string -> result pyval.
Variable json_dumps : option nat -> pyval -> string.

Definition extract_all_definitions (file_path : string) : io pyval :=
  file_contents ← read_text file_path;
  module ← lift (ast_parse file_contents);
  mret (process_node unparse module file_contents (Some file_path)).

Definition get_ast_as_dict (file_path : string) : io pyval :=
  extract_all_definitions file_path.

Definition get_ast_as_json (file_path : string) : io string :=
  result_dict ← extract_all_definitions file_path;
  mret (json_dumps (Some 4%nat) result_dict).

Definition save_ast_as_json (file_path_in file_path_out : string) : io unit :=
  result_dict ← extract_all_definitions file_path_in;
  let json_ast := json_dumps (Some 4%nat) result_dict in
  write_text file_path_out json_ast.

Definition load_ast_from_json (file_path_in : string) : io pyval :=
  json_ast ← read_text file_path_in;
  lift (json_loads json_ast).

Definition rebuild_from_dict_or_json (data : pyval) (output_file_path : string)
    : io string :=
  data ← match data with
         | PStr json_string => lift (json_loads json_string)
         | _ => mret data
         end;
  has_file ← lift (py_contains "file" data);
  if has_file : bool then
    path ← lift (py_getitem data "file");
    original_source ← open_read path;
    write_text output_file_path original_source;;
    mret original_source
  else
    source_code ← lift (rebuild_from_json json_loads (json_dumps None data));
    write_text output_file_path source_code;;
    mret source_code.

End Files.

(** * Notions used by the statements *)

(** ** Records written out *)

(** A field of a value that is a dictionary. *)
Definition field (k : string) (v : pyval) : option pyval :=
  match v with
  | PDict d => dict_get k d
  | _ => None
  end.

(** The record of a definition, written out. *)
Definition definition_record (unparse : AST -> string) (pn : AST -> pyval)
    (node : AST) (body : list AST) (lineno : Z) (end_lineno : option Z) : pydict :=
  (("functionDefinition", PStr (unparse node)) ::
   (if truthy_text (get_docstring body)
    then [("docstring", PStr (default EmptyString (get_docstring body)))]
    else []) ++
   [("functions", PList (map pn (List.filter is_function body)));
    ("summary", PList []);
    ("classes", PList (map pn (List.filter is_class body)));
    ("startLine", PInt lineno);
    ("endLine", getattr_end_lineno end_lineno lineno)]).

(** A definition statement named [k]. *)
Definition defines (k : string) (item : AST) : bool :=
  is_definition item && bool_decide (node_name item = k).

(** The last statement of [body] that defines [k]. *)
Definition last_definition (k : string) (body : list AST) : option AST :=
  last (List.filter (defines k) body).

(** What one round of the module loop does to the map under ["module"]. *)
Definition module_step (pn : AST -> pyval) (m : pydict) (item : AST) : pydict :=
  if is_definition item then dict_set (node_name item) (pn item) m else m.

Definition module_map (pn : AST -> pyval) (body : list AST) : pydict :=
  fold_left (module_step pn) body [].

(** The record of a module, written out. *)
Definition unit_record (pn : AST -> pyval) (body : list AST) (code_string : string)
    (file_path : option string) : pydict :=
  ("summary", PList []) ::
  (if truthy_text file_path
   then [("file", PStr (default EmptyString file_path))]
   else []) ++
  [("module", PDict (module_map pn body));
   ("startLine", PInt 1);
   ("endLine", PInt (Z.of_nat (length (splitlines code_string))))].

(** The extraction of a member: [self.process_node(item, code_string)]. *)
Definition member (unparse : AST -> string) (code_string : string) (item : AST) : pyval :=
  process_node unparse item code_string None.

(** ** Plain texts *)

(** A text of one line, without tab. *)
Fixpoint plain_text (s : string) : bool :=
  match s with
  | EmptyString => true
  | String c s' => negb (is_char c TAB) && negb (is_char c LF) && plain_text s'
  end.

(** ** Line counts *)

(** The characters that end a line of source text: LF and CR, CR LF ending
    one line.  The parser numbers the lines of a text by them. *)
Definition is_newline (c : ascii) : bool := is_char c LF || is_char c CR.

(** The line terminators of a text, CR LF counting once. *)
Fixpoint newline_terminators (s : string) : nat :=
  match s with
  | EmptyString => 0
  | String c s' =>
      if is_newline c then
        match s' with
        | String c' s'' =>
            if is_char c CR && is_char c' LF then S (newline_terminators s'')
            else S (newline_terminators s')
        | EmptyString => 1
        end
      else newline_terminators s'
  end.

(** Whether the text ends in a line that no terminator closes. *)
Fixpoint open_last_line (s : string) : bool :=
  match s with
  | EmptyString => false
  | String c EmptyString => negb (is_newline c)
  | String _ s' => open_last_line s'
  end.

(** The total line count of a text: one line per terminator, and one more
    for a last line left open. *)
Definition total_line_count (s : string) : nat :=
  (newline_terminators s + if open_last_line s then 1 else 0)%nat.

(** A text in which nothing but LF, CR and CR LF ends a line for
    [str.splitlines]: it has none of VT, FF, FS, GS, RS and NEL. *)
Fixpoint newlines_only (s : string) : bool :=
  match s with
  | EmptyString => true
  | String c s' => bool_decide (is_linebreak c = is_newline c) && newlines_only s'
  end.

(** ** Positions and spans *)


(** Every value stored inside a value, at any depth. *)
Fixpoint nested_values (v : pyval) : list pyval :=
  match v with
  | PList items => flat_map (fun item => item :: nested_values item) items
  | PDict d => flat_map (fun e => snd e :: nested_values (snd e)) d
  | _ => []
  end.

(** The line span a record carries. *)
Definition span (v : pyval) : option (Z * Z) :=
  match field "startLine" v, field "endLine" v with
  | Some (PInt s), Some (PInt e) => Some (s, e)
  | _, _ => None
  end.

Definition span_ok (v : pyval) : Prop :=
  ∀ s e, span v = Some (s, e) → s ≤ e.


(** ** The order of a rebuild *)

(** The sort key of an entry: [d.get("startLine", 0)]. *)
Definition sort_key (v : pyval) : pyval :=
  match v with
  | PDict e => default (PInt 0) (dict_get "startLine" e)
  | _ => PNone
  end.

(** The start line an entry is ordered by. *)
Definition start_line (v : pyval) : Z := default 0 (as_int (sort_key v)).

(** The text an entry contributes: its ["functionDefinition"], else its
    ["defString"], else nothing. *)
Definition entry_text (v : pyval) : option string :=
  match v with
  | PDict e =>
      match dict_get "functionDefinition" e with
      | Some (PStr s) => Some s
      | Some _ => None
      | None =>
          match dict_get "defString" e with
          | Some (PStr s) => Some s
          | _ => None
          end
      end
  | _ => None
  end.

(** An entry as the schema has it: a dictionary whose start line, when
    there is one, is an integer, and whose text is a text. *)
Definition well_formed_entry (v : pyval) : bool :=
  match v with
  | PDict e =>
      bool_decide (is_Some (as_int (default (PInt 0) (dict_get "startLine" e)))) &&
      match dict_get "functionDefinition" e with
      | Some (PStr _) => true
      | Some _ => false
      | None =>
          match dict_get "defString" e with
          | Some (PStr _) | None => true
          | Some _ => false
          end
      end
  | _ => false
  end.

(** The stable insertion on start lines. *)
Fixpoint insert_entry (x : pyval) (l : list pyval) : list pyval :=
  match l with
  | [] => [x]
  | y :: l' =>
      if start_line x <? start_line y then x :: l else y :: insert_entry x l'
  end.

Definition sort_entries (l : list pyval) : list pyval :=
  fold_left (fun acc x => insert_entry x acc) l [].

Definition by_start_line (a b : pyval) : Prop := start_line a ≤ start_line b.

Definition on_line (z : Z) (v : pyval) : bool := start_line v =? z.

Definition tag_key (d : pyval) : pyval * pyval := (sort_key d, d).

(** ** Text modes *)

(** The line separator of a host: LF, or CR LF. *)
Definition posix_linesep : string := String LF EmptyString.
Definition windows_linesep : string := String CR (String LF EmptyString).

(** A text without carriage return. *)
Fixpoint no_carriage_return (s : string) : bool :=
  match s with
  | EmptyString => true
  | String c s' => negb (is_char c CR) && no_carriage_return s'
  end.

(** ** Worked inputs *)

(** A stand-in for the unparser in the worked inputs: it prints the header
    of a definition.  The theorems hold for every unparser. *)
Definition header_unparse (node : AST) : string :=
  match node with
  | ClassDef name _ _ _ => "class " +:+ name +:+ ":"
  | FunctionDef name _ _ _ => "def " +:+ name +:+ "():"
  | AsyncFunctionDef name _ _ _ => "async def " +:+ name +:+ "():"
  | _ => EmptyString
  end.

(** A text from its lines, each closed by LF. *)
Fixpoint text_of_lines (lines : list string) : string :=
  match lines with
  | [] => EmptyString
  | l :: ls => l +:+ String LF (text_of_lines ls)
  end.

(** [def f():] with the docstring ['  padded'] and a [pass]. *)
Definition padded_source : string :=
  text_of_lines ["def f():"; "    '  padded'"; "    pass"].

Definition padded_function : AST :=
  FunctionDef "f" [Expr (Constant (CStr "  padded")); OtherStmt "pass"] 1 (Some 3).

(** [def f():] with a [pass], a form feed before the [def]: two lines of
    text, the definition on lines 1 to 2. *)
Definition form_feed_source : string :=
  String FF (text_of_lines ["def f():"; "    pass"]).

Definition form_feed_function : AST :=
  FunctionDef "f" [OtherStmt "pass"] 1 (Some 2).

(** Two definitions of one name, a class between them. *)
Definition twice_source : string :=
  text_of_lines ["def f():"; "    pass"; "class A:"; "    pass"; "def f():"; "    return 1"].

Definition twice_body : list AST :=
  [FunctionDef "f" [OtherStmt "pass"] 1 (Some 2);
   ClassDef "A" [OtherStmt "pass"] 3 (Some 4);
   FunctionDef "f" [OtherStmt "return"] 5 (Some 6)].

(** A class with a docstring, a method that defines a function, a nested
    class, and a function defined under an [if], which is no direct member. *)
Definition outer_source : string :=
  text_of_lines
    ["class Outer:";
     "    'Outer class'";
     "    def method(self):";
     "        def inner():";
     "            pass";
     "    class Inner:";
     "        pass";
     "    if flag:";
     "        def hidden():";
     "            pass"].

Definition outer_class : AST :=
  ClassDef "Outer"
    [Expr (Constant (CStr "Outer class"));
     FunctionDef "method" [FunctionDef "inner" [OtherStmt "pass"] 4 (Some 5)] 3 (Some 5);
     ClassDef "Inner" [OtherStmt "pass"] 6 (Some 7);
     If [FunctionDef "hidden" [OtherStmt "pass"] 9 (Some 10)] []]
    1 (Some 10).

(** An entry with a text and a start line. *)
Definition entry (text : string) (line : Z) : pyval :=
  PDict [("functionDefinition", PStr text); ("startLine", PInt line)].

(** Two structures with the same two entries, both of start line 1, put in
    the map in the two possible orders. *)
Definition tie_ab : pyval :=
  PDict [("module", PDict [("a", entry "def a(): pass" 1); ("b", entry "def b(): pass" 1)])].

Definition tie_ba : pyval :=
  PDict [("module", PDict [("b", entry "def b(): pass" 1); ("a", entry "def a(): pass" 1)])].

(** Three entries out of order, one of them with the legacy field, and an
    entry without text. *)
Definition shuffled_module : pydict :=
  [("c", entry "def c(): pass" 9);
   ("a", PDict [("defString", PStr "def a(): pass"); ("startLine", PInt 1)]);
   ("n", PDict [("startLine", PInt 4)]);
   ("b", entry "def b(): pass" 5)].

(** Stand-ins for the collaborators on the worked inputs: each knows the
    texts of a table and rejects every other text. *)
Definition lookup_text {A : Type} (table : list (string * A)) (s : string) : option A :=
  snd <$> find (fun entry => bool_decide (fst entry = s)) table.

Definition table_loads (table : list (string * pyval)) (s : string) : result pyval :=
  match lookup_text table s with
  | Some v => Val v
  | None => raise JSONDecodeError
  end.

Definition table_parse (table : list (string * AST)) (s : string) : result AST :=
  match lookup_text table s with
  | Some tree => Val tree
  | None => raise SyntaxError
  end.

(** An evaluator for the worked inputs: the code of a source is the source;
    executing a source of the table has the outcome listed there, executing
    any other source leaves the namespace as it is. *)
Definition table_exec (table : list (string * result (list (string * string))))
    (code : string) (namespace : list (string * string))
    : result (list (string * string)) :=
  match lookup_text table code with
  | Some outcome => outcome
  | None => Val namespace
  end.

Definition table_compile (rejected : list (string * exn)) (source : string)
    : result string :=
  match lookup_text rejected source with
  | Some e => Raise e
  | None => Val source
  end.

Definition DQ : string := String "034"%char EmptyString.

(** The JSON text of a single definition with the given text. *)
Definition definition_json (text : string) : string :=
  "{" +:+ DQ +:+ "functionDefinition" +:+ DQ +:+ ": " +:+ DQ +:+ text +:+ DQ +:+ "}".

(** A class whose body leaves the interpreter, one that raises an error, a
    function header that does not compile, and a function that is fine. *)
Definition exit_class : string := "class A: raise SystemExit(1)".
Definition failing_class : string := "class B: raise ValueError('bad')".
Definition broken_function : string := "def broken(:".
Definition add_function : string := "def add(a, b): return a + b".

(** A class that raises a [RuntimeError], and a statement that raises an
    exception whose [__str__] does not return a string. *)
Definition halting_class : string := "class C: raise RuntimeError('halt')".
Definition unprintable_raise : string :=
  "raise type('D', (Exception,), {'__str__': lambda s: 1})()".

Definition sample_loads : string -> result pyval :=
  table_loads
    [(definition_json exit_class, PDict [("functionDefinition", PStr exit_class)]);
     (definition_json failing_class, PDict [("functionDefinition", PStr failing_class)]);
     (definition_json broken_function, PDict [("functionDefinition", PStr broken_function)]);
     (definition_json add_function, PDict [("functionDefinition", PStr add_function)]);
     (definition_json halting_class, PDict [("functionDefinition", PStr halting_class)]);
     (definition_json unprintable_raise,
      PDict [("functionDefinition", PStr unprintable_raise)])].

Definition sample_compile : string -> result string :=
  table_compile [(broken_function, Exn SyntaxError "invalid syntax (<reconstructed>, line 1)")].

Definition sample_exec : string -> list (string * string) -> result (list (string * string)) :=
  table_exec
    [(exit_class, Raise (Exn SystemExit "1"));
     (failing_class, Raise (Exn (OtherException "ValueError") "bad"));
     (add_function, Val [("__builtins__", "<module 'builtins'>"); ("add", "<function add>")]);
     (halting_class, Raise (Exn RuntimeError "halt"));
     (unprintable_raise, Raise (Exn (OtherException "D") EmptyString))].

(** [str(e)] for the worked inputs: the message, but for the exception of
    [unprintable_raise]. *)
Definition sample_str (e : exn) : result string :=
  match exn_cls e with
  | OtherException "D" =>
      Raise (Exn TypeError "__str__ returned non-string (type int)")
  | _ => Val (exn_str e)
  end.

(** A file with CR LF line ends, its text as a text-mode read gives it, and
    its tree. *)
Definition greet_bytes : string :=
  "def greet():" +:+ String CR (String LF ("    return 1" +:+ String CR (String LF EmptyString))).

Definition greet_text : string := text_of_lines ["def greet():"; "    return 1"].

Definition greet_tree : AST :=
  Module [FunctionDef "greet" [OtherStmt "return"] 1 (Some 2)].

Definition greet_files : filesystem := {["greet.py" := greet_bytes]}.

Definition sample_parse : string -> result AST :=
  table_parse [(greet_text, greet_tree)].

(** * Notions used by the further properties *)

(** [c.isspace()] for a code point below 256: the characters [str.strip],
    [str.lstrip] and [str.rstrip] remove when they are given no argument. *)
Definition is_whitespace (c : ascii) : bool :=
  let n := nat_of_ascii c in
  ((9 <=? n) && (n <=? 13) || (28 <=? n) && (n <=? 32) ||
   (n =? 133) || (n =? 160))%nat.

(** The keys of a record, in the order the dictionary has them. *)
Definition record_keys (v : pyval) : list string :=
  match v with
  | PDict d => dict_keys d
  | _ => []
  end.

(** The names of a list, each kept where it first occurs. *)
Fixpoint first_occurrences (l : list string) : list string :=
  match l with
  | [] => []
  | x :: l' => x :: List.filter (fun y => negb (bool_decide (y = x))) (first_occurrences l')
  end.

(** The errors a lookup on a value of the wrong kind raises. *)
Definition kind_error (e : exn) : Prop :=
  exn_cls e = TypeError ∨ exn_cls e = AttributeError.

Definition raises_kind_errors {A : Type} (r : result A) : Prop :=
  match r with
  | Val _ => True
  | Raise e => kind_error e
  end.

(** The definitions that are direct statements of a body. *)
Definition direct_definitions (body : list AST) : list AST :=
  List.filter is_definition body.

Definition by_lineno (a b : AST) : Prop := node_lineno a ≤ node_lineno b.

(** What [rebuild_from_dict_or_json] does once its argument is a structure:
    the statements after the decoding of a text argument. *)
Definition rebuild_structure (os_linesep : string) (json_loads : string -> result pyval)
    (json_dumps : option nat -> pyval -> string) (data : pyval)
    (output_file_path : string) : io string :=
  has_file ← lift (py_contains "file" data);
  if has_file : bool then
    path ← lift (py_getitem data "file");
    original_source ← open_read path;
    write_text os_linesep output_file_path original_source;;
    mret original_source
  else
    source_code ← lift (rebuild_from_json json_loads (json_dumps None data));
    write_text os_linesep output_file_path source_code;;
    mret source_code.

(** ** Further worked inputs *)

(** A stand-in for the encoder on the worked inputs: the compact JSON text of
    a value whose texts need no escape; the indentation asked for is not
    rendered. *)
Fixpoint compact_json (v : pyval) : string :=
  match v with
  | PNone => "null"
  | PBool b => if b then "true" else "false"
  | PInt z => pretty z
  | PStr s => DQ +:+ s +:+ DQ
  | PList items => "[" +:+ join ", " (map compact_json items) +:+ "]"
  | PDict d =>
      "{" +:+
      join ", " (map (fun e => DQ +:+ fst e +:+ DQ +:+ ": " +:+ compact_json (snd e)) d)
      +:+ "}"
  end.

Definition sample_dumps (indent : option nat) (v : pyval) : string := compact_json v.

(** The structure the extraction of [greet.py] gives, and a decoder that
    knows its text. *)
Definition greet_unit : pyval :=
  process_node header_unparse greet_tree greet_text (Some "greet.py").

Definition greet_loads : string -> result pyval :=
  table_loads [(compact_json greet_unit, greet_unit)].

(** A structure without path, a decoder that knows its text, and a
    structure whose path names no file and whose module is no map. *)
Definition shuffled_unit : pyval := PDict [("module", PDict shuffled_module)].

Definition shuffled_loads : string -> result pyval :=
  table_loads [(compact_json shuffled_unit, shuffled_unit)].

Definition stale_unit : pydict := [("file", PStr "gone.py"); ("module", PInt 42)].

Definition odd_unit : pydict := [("file", PStr "greet.py"); ("module", PInt 42)].

(** A module whose definitions come in line order, with a statement between
    them. *)
Definition ordered_body : list AST :=
  [OtherStmt "import";
   FunctionDef "first" [OtherStmt "pass"] 2 (Some 3);
   ClassDef "Second" [OtherStmt "pass"] 5 (Some 6);
   AsyncFunctionDef "third" [OtherStmt "pass"] 8 (Some 9)].

Definition ordered_source : string :=
  text_of_lines
    ["import os"; "def first():"; "    pass"; EmptyString; "class Second:"; "    pass";
     EmptyString; "async def third():"; "    pass"].

(** A map whose entries have no start line. *)
Definition legacy_module : pydict :=
  [("z", PDict [("defString", PStr "def z(): pass")]);
   ("a", PDict [("defString", PStr "def a(): pass")])].

(** A file that does not parse. *)
Definition broken_files : filesystem := {["broken.py" := broken_function]}.

(** A file with LF line ends. *)
Definition plain_files : filesystem := {["plain.py" := greet_text]}.

(** * Properties *)

(** ** Dictionaries *)

Lemma dict_get_set_eq k v d : dict_get k (dict_set k v d) = Some v.
Proof.
  induction d as [|[k' v'] d IH]; simpl.
  - by rewrite decide_True.
  - destruct (decide (k = k')) as [->|Hne]; simpl.
    + by rewrite decide_True.
    + by rewrite decide_False.
Qed.

Lemma dict_get_set_ne k k' v d :
  k ≠ k' → dict_get k' (dict_set k v d) = dict_get k' d.
Proof.
  intros Hne. induction d as [|[k'' v''] d IH]; simpl.
  - rewrite decide_False; [done | congruence].
  - destruct (decide (k = k'')) as [->|Hne']; simpl.
    + rewrite !decide_False; congruence.
    + destruct (decide (k' = k'')); [done | apply IH].
Qed.

Lemma dict_get_set k k' v d :
  dict_get k' (dict_set k v d) = if decide (k = k') then Some v else dict_get k' d.
Proof.
  case_decide as H; [subst; apply dict_get_set_eq | by apply dict_get_set_ne].
Qed.

Lemma dict_keys_set k v d :
  dict_keys (dict_set k v d) =
  if bool_decide (k ∈ dict_keys d) then dict_keys d else (dict_keys d ++ [k]).
Proof.
  induction d as [|[k' v'] d IH]; simpl; [done|].
  destruct (decide (k = k')) as [->|Hne]; simpl.
  - rewrite bool_decide_true; [done | set_solver].
  - rewrite IH. unfold dict_keys. simpl.
    destruct (decide (k ∈ map fst d)) as [Hin|Hin].
    + rewrite !bool_decide_true; [done | set_solver | done].
    + rewrite !bool_decide_false; [done | set_solver | done].
Qed.

Lemma dict_keys_NoDup_set k v d : NoDup (dict_keys d) → NoDup (dict_keys (dict_set k v d)).
Proof.
  intros Hnd. rewrite dict_keys_set. case_bool_decide as Hin; [done|].
  apply NoDup_app. split_and!; [done | | apply NoDup_singleton].
  intros x Hx Hx'. apply list_elem_of_singleton in Hx'. by subst.
Qed.

Lemma dict_get_None_keys k d : dict_get k d = None ↔ k ∉ dict_keys d.
Proof.
  induction d as [|[k' v'] d IH]; simpl.
  - split; [set_solver | done].
  - case_decide as H; [subst; set_solver|].
    rewrite IH. unfold dict_keys. set_solver.
Qed.

Lemma dict_alter_app f k pre d :
  k ∉ dict_keys pre → dict_alter f k (pre ++ d) = (pre ++ dict_alter f k d).
Proof.
  induction pre as [|[k' v'] pre IH]; simpl; [done|].
  intros Hnotin. rewrite decide_False; [|set_solver].
  f_equal. apply IH. set_solver.
Qed.

Lemma dict_set_app_new k v pre d :
  k ∉ dict_keys pre → dict_set k v (pre ++ d) = (pre ++ dict_set k v d).
Proof.
  induction pre as [|[k' v'] pre IH]; simpl; [done|].
  intros Hnotin. rewrite decide_False; [|set_solver].
  f_equal. apply IH. set_solver.
Qed.

(** ** The shape of the extracted records *)

Section ExtractorFacts.

Variable unparse : AST -> string.

(** The members of a definition as the loop leaves them: the function
    definitions of the body, and its class definitions, each in source
    order. *)
Lemma fold_collect_members (pn : AST -> pyval) (body : list AST) :
  ∀ (pre : pydict) (fs cs : list pyval) (s : pyval),
    "functions" ∉ dict_keys pre → "classes" ∉ dict_keys pre →
    fold_left (collect_members pn) body
      (pre ++ [("functions", PList fs); ("summary", s); ("classes", PList cs)]) =
    (pre ++ [("functions", PList (fs ++ map pn (List.filter is_function body)));
             ("summary", s);
             ("classes", PList (cs ++ map pn (List.filter is_class body)))]).
Proof.
  induction body as [|item body IH]; intros pre fs cs s Hf Hc; simpl.
  - by rewrite !app_nil_r.
  - unfold collect_members at 2.
    destruct (is_function item) eqn:Hfun.
    + assert (is_class item = false) as -> by (by destruct item).
      rewrite dict_alter_app by done. simpl.
      rewrite IH by done. by rewrite <- !app_assoc.
    + destruct (is_class item) eqn:Hcls.
      * rewrite dict_alter_app by done. simpl.
        rewrite IH by done. by rewrite <- !app_assoc.
      * by rewrite IH.
Qed.

Lemma process_class_record pn node body lineno end_lineno :
  process_class unparse pn node body lineno end_lineno =
  PDict (definition_record unparse pn node body lineno end_lineno).
Proof.
  unfold process_class, definition_record.
  destruct (truthy_text (get_docstring body)); simpl.
  - pose proof (fold_collect_members pn body
      [("functionDefinition", PStr (unparse node));
       ("docstring", PStr (default EmptyString (get_docstring body)))]
      [] [] (PList [])) as Hfold.
    simpl in Hfold. rewrite Hfold; [reflexivity | set_solver | set_solver].
  - pose proof (fold_collect_members pn body
      [("functionDefinition", PStr (unparse node))] [] [] (PList [])) as Hfold.
    simpl in Hfold. rewrite Hfold; [reflexivity | set_solver | set_solver].
Qed.

Lemma process_function_record pn node body lineno end_lineno :
  process_function unparse pn node body lineno end_lineno =
  PDict (definition_record unparse pn node body lineno end_lineno).
Proof. apply process_class_record. Qed.

End ExtractorFacts.

(** ** The module map *)

Lemma fold_collect_definitions (pn : AST -> pyval) (body : list AST) :
  ∀ (pre post : pydict) (m : pydict),
    "module" ∉ dict_keys pre →
    fold_left (collect_definitions pn) body (pre ++ ("module", PDict m) :: post) =
    pre ++ ("module", PDict (fold_left (module_step pn) body m)) :: post.
Proof.
  induction body as [|item body IH]; intros pre post m Hpre; simpl; [done|].
  unfold collect_definitions at 2, module_step at 2.
  destruct (is_definition item).
  - rewrite dict_alter_app by done. simpl. by rewrite IH.
  - by rewrite IH.
Qed.

Lemma fold_module_step_lookup (pn : AST -> pyval) (k : string) (body : list AST) :
  ∀ m : pydict,
    dict_get k (fold_left (module_step pn) body m) =
    match last_definition k body with
    | Some item => Some (pn item)
    | None => dict_get k m
    end.
Proof.
  unfold last_definition.
  induction body as [|item body IH]; intros m; simpl; [done|].
  rewrite IH. unfold module_step, defines at 2.
  destruct (is_definition item); simpl.
  - case_bool_decide as Hk.
    + rewrite last_cons. destruct (last (List.filter (defines k) body)); [done|].
      by rewrite Hk, dict_get_set_eq.
    + destruct (last (List.filter (defines k) body)); [done|].
      by rewrite dict_get_set_ne.
  - done.
Qed.

Lemma module_map_lookup pn k body :
  dict_get k (module_map pn body) = pn <$> last_definition k body.
Proof.
  unfold module_map. rewrite fold_module_step_lookup.
  by destruct (last_definition k body).
Qed.

Lemma fold_module_step_NoDup pn body :
  ∀ m : pydict, NoDup (dict_keys m) → NoDup (dict_keys (fold_left (module_step pn) body m)).
Proof.
  induction body as [|item body IH]; intros m Hm; simpl; [done|].
  apply IH. unfold module_step. destruct (is_definition item); [|done].
  by apply dict_keys_NoDup_set.
Qed.

Lemma module_map_NoDup pn body : NoDup (dict_keys (module_map pn body)).
Proof. apply fold_module_step_NoDup. constructor. Qed.

Lemma dict_set_new k v d : k ∉ dict_keys d → dict_set k v d = d ++ [(k, v)].
Proof.
  intros Hk. rewrite <- (app_nil_r d) at 1. by rewrite dict_set_app_new.
Qed.

(** When no two definitions of the body share a name, the map lists them all,
    in source order. *)
Lemma module_map_distinct pn body :
  NoDup (map node_name (List.filter is_definition body)) →
  module_map pn body =
  map (fun item => (node_name item, pn item)) (List.filter is_definition body).
Proof.
  unfold module_map.
  induction body as [|item body IH] using rev_ind; [done|].
  rewrite fold_left_app, List.filter_app, !map_app. simpl.
  unfold module_step at 1. destruct (is_definition item) eqn:Hdef; simpl.
  - intros Hnd. apply NoDup_app in Hnd as (Hnd & Hfresh & _).
    rewrite IH by done. rewrite dict_set_new; [done|].
    unfold dict_keys. rewrite map_map. simpl.
    intros Hin. apply (Hfresh _ Hin). set_solver.
  - rewrite !app_nil_r. apply IH.
Qed.

Lemma process_module_record pn body code_string file_path :
  process_module pn body code_string file_path =
  PDict (unit_record pn body code_string file_path).
Proof.
  unfold process_module, unit_record, module_map.
  destruct (truthy_text file_path); simpl.
  - pose proof (fold_collect_definitions pn body
      [("summary", PList []); ("file", PStr (default EmptyString file_path))]
      [] []) as Hfold.
    simpl in Hfold. rewrite Hfold; [reflexivity | set_solver].
  - pose proof (fold_collect_definitions pn body
      [("summary", PList [])] [] []) as Hfold.
    simpl in Hfold. rewrite Hfold; [reflexivity | set_solver].
Qed.

Section ProcessNode.

Variable unparse : AST -> string.
Variable code_string : string.

Lemma process_node_module body file_path :
  process_node unparse (Module body) code_string file_path =
  PDict (unit_record (member unparse code_string) body code_string file_path).
Proof. simpl. apply process_module_record. Qed.

Lemma process_node_definition node file_path :
  is_definition node = true →
  process_node unparse node code_string file_path =
  PDict (definition_record unparse (member unparse code_string) node (node_body node)
           (node_lineno node) (node_end_lineno node)).
Proof.
  destruct node; try discriminate; intros _; simpl;
    apply process_class_record.
Qed.

End ProcessNode.

(** ** Line counts *)

Lemma splitlines_nil s : splitlines s = [] ↔ s = EmptyString.
Proof.
  split; [|by intros ->].
  destruct s as [|c s]; [done|]. simpl.
  destruct (is_linebreak c).
  - destruct s as [|c' s]; [done|]. by destruct (is_char c CR && is_char c' LF).
  - by destruct (splitlines s).
Qed.

Lemma open_last_line_cons c s :
  s ≠ EmptyString → open_last_line (String c s) = open_last_line s.
Proof. by destruct s. Qed.

(** Where nothing but LF, CR and CR LF ends a line, [str.splitlines] finds
    the lines of the text. *)
Lemma length_splitlines s :
  newlines_only s = true → length (splitlines s) = total_line_count s.
Proof.
  unfold total_line_count.
  remember (String.length s) as n eqn:Hn.
  revert s Hn. induction (lt_wf n) as [n _ IH]. intros s -> Honly.
  destruct s as [|c s]; [done|].
  cbn [newlines_only] in Honly. apply andb_prop in Honly as [Hc Hs].
  apply bool_decide_eq_true in Hc.
  cbn [splitlines newline_terminators]. rewrite <- Hc.
  destruct (is_linebreak c) eqn:Hbreak.
  - destruct s as [|c' s].
    + simpl. by rewrite <- Hc.
    + rewrite open_last_line_cons by done.
      cbn [newlines_only] in Hs. apply andb_prop in Hs as [Hc' Hs'].
      apply bool_decide_eq_true in Hc'.
      destruct (is_char c CR && is_char c' LF) eqn:Hcrlf.
      * cbn [length]. rewrite (IH (String.length s)); [|simpl; lia|done|done].
        apply andb_prop in Hcrlf as [_ Hlf].
        assert (is_newline c' = true) as Hnl.
        { unfold is_newline. by rewrite Hlf. }
        destruct s as [|c'' s]; [simpl; by rewrite Hnl|].
        by rewrite (open_last_line_cons c') by done.
      * cbn [length].
        rewrite (IH (String.length (String c' s))); [done|simpl; lia|done|].
        cbn [newlines_only]. by rewrite bool_decide_true, Hs' by done.
  - pose proof (IH (String.length s)) as IHs.
    specialize (IHs ltac:(simpl; lia) s eq_refl Hs).
    destruct s as [|c' s].
    + simpl. by rewrite <- Hc.
    + rewrite open_last_line_cons by done. rewrite <- IHs.
      destruct (splitlines (String c' s)) eqn:Hsl; [|done].
      by apply splitlines_nil in Hsl.
Qed.

(** ** Unit records: C4 *)

(** The record of a module has startLine 1 and, as endLine, the number of
    pieces [str.splitlines] cuts the source text into. *)
Lemma unit_lines (unparse : AST -> string) (body : list AST)
    (code_string : string) (file_path : option string) :
  field "startLine" (process_node unparse (Module body) code_string file_path)
    = Some (PInt 1) ∧
  field "endLine" (process_node unparse (Module body) code_string file_path)
    = Some (PInt (Z.of_nat (length (splitlines code_string)))).
Proof.
  rewrite !process_node_module. unfold unit_record, field.
  destruct (truthy_text file_path); simpl; repeat split; reflexivity.
Qed.

(** For a text in which only LF, CR and CR LF end a line, the endLine of
    the module's record is the total line count of the text. *)
Lemma unit_lines_newlines_only (unparse : AST -> string) (body : list AST)
    (code_string : string) (file_path : option string) :
  newlines_only code_string = true →
  field "endLine" (process_node unparse (Module body) code_string file_path)
    = Some (PInt (Z.of_nat (total_line_count code_string))).
Proof.
  intros Honly. rewrite <- length_splitlines by done. apply unit_lines.
Qed.

(** For the empty text, whose tree has no statement, the definitions map is
    empty, startLine is 1 and endLine is 0. *)
Lemma empty_unit (unparse : AST -> string) (file_path : option string) :
  field "module" (process_node unparse (Module []) EmptyString file_path)
    = Some (PDict []) ∧
  field "startLine" (process_node unparse (Module []) EmptyString file_path)
    = Some (PInt 1) ∧
  field "endLine" (process_node unparse (Module []) EmptyString file_path)
    = Some (PInt 0).
Proof.
  rewrite !process_node_module. unfold unit_record, field.
  destruct (truthy_text file_path); simpl; repeat split; reflexivity.
Qed.

(** C4: the endLine of a module's record is not always the total line count
    of the source text.  The text of [form_feed_source] has two lines, a
    form feed before the [def] of the first; its one definition is recorded
    on lines 1 to 2, and the record of the module has endLine 3, because
    [str.splitlines] also breaks at the form feed. *)
Theorem C4_form_feed_counts_as_line :
  let unit :=
    process_node header_unparse (Module [form_feed_function])
      form_feed_source None in
  total_line_count form_feed_source = 2%nat ∧
  field "startLine" unit = Some (PInt 1) ∧
  field "endLine" unit = Some (PInt 3) ∧
  (∃ record,
     (field "module" unit ≫= field "f") = Some record ∧
     field "startLine" record = Some (PInt 1) ∧
     field "endLine" record = Some (PInt 2)).
Proof.
  split_and!; [reflexivity..|].
  eexists. split_and!; reflexivity.
Qed.

(** ** Docstrings: C5 and C10 *)

(** *** [cleandoc] on a plain one-line text *)

Lemma expandtabs_from_plain s : ∀ col, plain_text s = true → expandtabs_from col s = s.
Proof.
  induction s as [|c s IH]; intros col; [done|]. simpl.
  intros [[Htab Hlf]%andb_prop Hs]%andb_prop.
  apply negb_true_iff in Htab, Hlf. rewrite Htab, Hlf. simpl.
  destruct (is_char c CR); by rewrite IH.
Qed.

Lemma split_lf_plain s : plain_text s = true → split_lf s = [s].
Proof.
  induction s as [|c s IH]; [done|]. simpl.
  intros [[Htab Hlf]%andb_prop Hs]%andb_prop.
  apply negb_true_iff in Hlf. rewrite Hlf. by rewrite IH.
Qed.

(** A one-line text without tab that does not start with a space is its own
    cleaned form. *)
Lemma cleandoc_plain c s :
  is_char c SPACE = false → plain_text (String c s) = true →
  cleandoc (String c s) = String c s.
Proof.
  intros Hc Hplain. unfold cleandoc, expandtabs.
  rewrite expandtabs_from_plain by done. rewrite split_lf_plain by done.
  simpl. by rewrite Hc.
Qed.

Lemma definition_docstring (unparse : AST -> string) code_string file_path node :
  is_definition node = true →
  field "docstring" (process_node unparse node code_string file_path) =
  if truthy_text (get_docstring (node_body node))
  then Some (PStr (default EmptyString (get_docstring (node_body node))))
  else None.
Proof.
  intros Hdef. rewrite process_node_definition by done.
  unfold definition_record, field.
  by destruct (truthy_text (get_docstring (node_body node))).
Qed.

(** C5, as stated, fails: the docstring recorded for a function whose body
    begins with the literal ['  padded'] is the cleaned text, not the
    literal. *)
Lemma C5_counterexample :
  node_body padded_function = [Expr (Constant (CStr "  padded")); OtherStmt "pass"] ∧
  field "docstring" (process_node header_unparse padded_function padded_source None)
    = Some (PStr "padded") ∧
  field "docstring" (process_node header_unparse padded_function padded_source None)
    ≠ Some (PStr "  padded").
Proof. split_and!; [reflexivity | reflexivity | discriminate]. Qed.

(** C5, amended: for a class or function definition whose body begins with a
    bare string literal, the docstring field holds the literal as
    [inspect.cleandoc] cleans it, provided the cleaned text is not empty;
    the field is absent when the cleaned text is empty and when the body
    does not begin with a string literal. *)
Theorem C5_docstring_cleaned (unparse : AST -> string) (code_string : string)
    (file_path : option string) (node : AST) :
  is_definition node = true →
  field "docstring" (process_node unparse node code_string file_path) =
  match node_body node with
  | Expr (Constant (CStr text)) :: _ =>
      if is_empty (cleandoc text) then None else Some (PStr (cleandoc text))
  | _ => None
  end.
Proof.
  intros Hdef. rewrite definition_docstring by done.
  destruct (node_body node) as [|[| | | |[[text| | | | |]|]| |] rest]; try reflexivity.
  simpl. by destruct (is_empty (cleandoc text)).
Qed.

(** C5, amended, at the function with the docstring ['  padded']. *)
Lemma C5_docstring_cleaned_witness :
  field "docstring" (process_node header_unparse padded_function padded_source None) =
  match node_body padded_function with
  | Expr (Constant (CStr text)) :: _ =>
      if is_empty (cleandoc text) then None else Some (PStr (cleandoc text))
  | _ => None
  end.
Proof. apply C5_docstring_cleaned. reflexivity. Defined.

(** The docstring of a definition whose literal is plain is the literal. *)
Lemma docstring_plain_verbatim (unparse : AST -> string) code_string file_path node c s rest :
  is_definition node = true →
  node_body node = Expr (Constant (CStr (String c s))) :: rest →
  is_char c SPACE = false → plain_text (String c s) = true →
  field "docstring" (process_node unparse node code_string file_path)
    = Some (PStr (String c s)).
Proof.
  intros Hdef Hbody Hc Hplain. rewrite definition_docstring by done.
  rewrite Hbody. simpl. by rewrite cleandoc_plain.
Qed.

(** C10: a class or function definition whose body begins with the empty
    string literal has no docstring field; in general the field is present
    exactly when what [get_docstring] returns is true as a condition. *)
Theorem C10_empty_docstring_absent (unparse : AST -> string) (code_string : string)
    (file_path : option string) (node : AST) (rest : list AST) :
  is_definition node = true →
  node_body node = Expr (Constant (CStr EmptyString)) :: rest →
  field "docstring" (process_node unparse node code_string file_path) = None ∧
  ∀ other : AST,
    is_definition other = true →
    (is_Some (field "docstring" (process_node unparse other code_string file_path)) ↔
     truthy_text (get_docstring (node_body other)) = true).
Proof.
  intros Hdef Hbody. split.
  - rewrite definition_docstring by done. by rewrite Hbody.
  - intros other Hother. rewrite definition_docstring by done.
    destruct (truthy_text (get_docstring (node_body other))).
    + split; [done | by eexists].
    + split; [by intros [? ?] | done].
Qed.

(** C10 at a class whose body begins with the empty literal. *)
Lemma C10_empty_docstring_absent_witness :
  field "docstring"
    (process_node header_unparse
       (ClassDef "A" [Expr (Constant (CStr EmptyString)); OtherStmt "pass"] 1 (Some 3))
       (text_of_lines ["class A:"; "    ''"; "    pass"]) None) = None.
Proof.
  apply (C10_empty_docstring_absent header_unparse _ None
           (ClassDef "A" [Expr (Constant (CStr EmptyString)); OtherStmt "pass"] 1 (Some 3))
           [OtherStmt "pass"]); reflexivity.
Defined.

(** ** Name collisions and direct members: C7 and C8 *)

Lemma dict_get_elem_of k v d :
  NoDup (dict_keys d) → (k, v) ∈ d → dict_get k d = Some v.
Proof.
  induction d as [|[k' v'] d IH]; simpl; intros Hnd Hin.
  - by apply elem_of_nil in Hin.
  - apply NoDup_cons in Hnd as [Hk' Hnd].
    apply elem_of_cons in Hin as [Heq|Hin].
    + injection Heq as -> ->. by rewrite decide_True.
    + case_decide as Hk; [|by apply IH].
      subst k'. exfalso. apply Hk'.
      apply list_elem_of_fmap. by exists (k, v).
Qed.

Lemma unit_module (unparse : AST -> string) body code_string file_path :
  field "module" (process_node unparse (Module body) code_string file_path) =
  Some (PDict (module_map (member unparse code_string) body)).
Proof.
  rewrite process_node_module. unfold unit_record, field.
  by destruct (truthy_text file_path).
Qed.

(** C7: when two or more direct statements of a module are class or function
    definitions of one name, the definitions map holds under that name the
    record of the last of them in source order and no other record; the
    extraction returns its dictionary as for any other module, there is no
    error. *)
Theorem C7_same_name_keeps_last (unparse : AST -> string) (body : list AST)
    (code_string : string) (file_path : option string)
    (k : string) (items : list AST) :
  List.filter (defines k) body = items →
  (2 ≤ length items)%nat →
  ∃ (m : pydict) (last_item : AST),
    field "module" (process_node unparse (Module body) code_string file_path)
      = Some (PDict m) ∧
    last items = Some last_item ∧
    dict_get k m = Some (process_node unparse last_item code_string None) ∧
    (∀ v, (k, v) ∈ m → v = process_node unparse last_item code_string None) ∧
    NoDup (dict_keys m).
Proof.
  intros Hitems Hlen.
  destruct (last items) as [last_item|] eqn:Hlast.
  2: { apply last_None in Hlast. subst items. rewrite Hlast in Hlen. simpl in Hlen. lia. }
  exists (module_map (member unparse code_string) body), last_item.
  assert (dict_get k (module_map (member unparse code_string) body)
          = Some (process_node unparse last_item code_string None)) as Hget.
  { rewrite module_map_lookup. unfold last_definition. by rewrite Hitems, Hlast. }
  split_and!; [apply unit_module | done | done | | apply module_map_NoDup].
  intros v Hv. apply dict_get_elem_of in Hv; [|apply module_map_NoDup].
  congruence.
Qed.

(** C7 at the module with two definitions of [f]. *)
Lemma C7_same_name_keeps_last_witness :
  ∃ (m : pydict) (last_item : AST),
    field "module" (process_node header_unparse (Module twice_body) twice_source None)
      = Some (PDict m) ∧
    last [FunctionDef "f" [OtherStmt "pass"] 1 (Some 2);
          FunctionDef "f" [OtherStmt "return"] 5 (Some 6)] = Some last_item ∧
    dict_get "f" m = Some (process_node header_unparse last_item twice_source None) ∧
    (∀ v, ("f", v) ∈ m → v = process_node header_unparse last_item twice_source None) ∧
    NoDup (dict_keys m).
Proof.
  apply (C7_same_name_keeps_last header_unparse twice_body twice_source None "f").
  - reflexivity.
  - simpl. lia.
Defined.

(** C8, as stated, fails: of the three definitions that are direct
    statements of the module, the map holds two; the first [f] has no
    record. *)
Lemma C8_counterexample :
  List.filter is_definition twice_body = twice_body ∧
  length twice_body = 3%nat ∧
  field "module" (process_node header_unparse (Module twice_body) twice_source None) =
  Some (PDict
    [("f", process_node header_unparse
             (FunctionDef "f" [OtherStmt "return"] 5 (Some 6)) twice_source None);
     ("A", process_node header_unparse
             (ClassDef "A" [OtherStmt "pass"] 3 (Some 4)) twice_source None)]).
Proof. split_and!; reflexivity. Qed.

(** C8, amended: the definitions map of a module holds, under each name, the
    record of the last class or function definition (sync or async) of that
    name among the direct statements of the module body, and nothing else:
    one entry per name, no entry for any other statement; when the names are
    pairwise distinct it lists the direct definitions, all of them, in source
    order.  The nestedFunctions and nestedClasses of a definition are the
    records of the function and of the class definitions that are direct
    statements of its body, in source order. *)
Theorem C8_direct_members (unparse : AST -> string) (body : list AST)
    (code_string : string) (file_path : option string) (node : AST) :
  is_definition node = true →
  (∃ m : pydict,
     field "module" (process_node unparse (Module body) code_string file_path)
       = Some (PDict m) ∧
     (∀ k, dict_get k m
           = (fun item => process_node unparse item code_string None)
               <$> last_definition k body) ∧
     NoDup (dict_keys m) ∧
     (NoDup (map node_name (List.filter is_definition body)) →
      m = map (fun item => (node_name item, process_node unparse item code_string None))
            (List.filter is_definition body))) ∧
  field "functions" (process_node unparse node code_string file_path) =
    Some (PList (map (fun item => process_node unparse item code_string None)
                   (List.filter is_function (node_body node)))) ∧
  field "classes" (process_node unparse node code_string file_path) =
    Some (PList (map (fun item => process_node unparse item code_string None)
                   (List.filter is_class (node_body node)))).
Proof.
  intros Hdef. split_and!.
  - exists (module_map (member unparse code_string) body).
    split_and!; [apply unit_module | | apply module_map_NoDup | ].
    + intros k. apply module_map_lookup.
    + apply module_map_distinct.
  - rewrite process_node_definition by done. unfold definition_record, field.
    by destruct (truthy_text (get_docstring (node_body node))).
  - rewrite process_node_definition by done. unfold definition_record, field.
    by destruct (truthy_text (get_docstring (node_body node))).
Qed.

(** C8, amended, at the class [Outer]: the function under the [if] is no
    member. *)
Lemma C8_direct_members_witness :
  field "functions" (process_node header_unparse outer_class outer_source None) =
    Some (PList
      [process_node header_unparse
         (FunctionDef "method" [FunctionDef "inner" [OtherStmt "pass"] 4 (Some 5)] 3 (Some 5))
         outer_source None]) ∧
  field "classes" (process_node header_unparse outer_class outer_source None) =
    Some (PList
      [process_node header_unparse (ClassDef "Inner" [OtherStmt "pass"] 6 (Some 7))
         outer_source None]).
Proof.
  apply (C8_direct_members header_unparse [outer_class] outer_source None outer_class).
  reflexivity.
Defined.

(** ** Line spans: C3 *)





Lemma span_ok_atom (v : pyval) : field "startLine" v = None → span_ok v.
Proof. intros Hv s e. unfold span. by rewrite Hv. Qed.







Lemma nested_values_atoms_ok (v : pyval) :
  field "startLine" v = None → nested_values v = [] →
  Forall span_ok (v :: nested_values v).
Proof. intros Hv ->. constructor; [by apply span_ok_atom | constructor]. Qed.

Section Spans.

Variable unparse : AST -> string.
Variable code_string : string.



End Spans.

(** *** The records at any depth are nested values *)






Section Recorded.

Variable unparse : AST -> string.
Variable code_string : string.

Lemma process_node_definition_path node file_path :
  is_definition node = true →
  process_node unparse node code_string file_path = member unparse code_string node.
Proof.
  intros Hdef. unfold member. by rewrite !process_node_definition.
Qed.



End Recorded.







(** ** Rebuilding: C2 *)

Lemma insert_entry_perm x l : Permutation (insert_entry x l) (x :: l).
Proof.
  induction l as [|y l IH]; simpl; [done|].
  destruct (start_line x <? start_line y); [done|].
  rewrite IH. apply perm_swap.
Qed.

Lemma sort_entries_snoc l x : sort_entries (l ++ [x]) = insert_entry x (sort_entries l).
Proof. unfold sort_entries. by rewrite fold_left_app. Qed.

Lemma sort_entries_perm l : Permutation (sort_entries l) l.
Proof.
  induction l as [|x l IH] using rev_ind; [done|].
  rewrite sort_entries_snoc, insert_entry_perm, IH.
  apply Permutation_cons_append.
Qed.

Lemma insert_entry_sorted x l :
  StronglySorted by_start_line l → StronglySorted by_start_line (insert_entry x l).
Proof.
  induction 1 as [|y l Hl IH Hy]; simpl.
  - repeat constructor.
  - destruct (start_line x <? start_line y) eqn:Hlt.
    + apply Z.ltb_lt in Hlt. constructor; [by constructor|].
      constructor; [unfold by_start_line; lia|].
      eapply Forall_impl; [exact Hy|]. unfold by_start_line. intros; lia.
    + apply Z.ltb_ge in Hlt. constructor; [done|].
      rewrite insert_entry_perm. by constructor.
Qed.

Lemma sort_entries_sorted l : StronglySorted by_start_line (sort_entries l).
Proof.
  induction l as [|x l IH] using rev_ind; [constructor|].
  rewrite sort_entries_snoc. by apply insert_entry_sorted.
Qed.

Lemma filter_none {A : Type} (f : A → bool) (l : list A) :
  Forall (fun v => f v = false) l → List.filter f l = [].
Proof. induction 1 as [|v l Hv _ IH]; simpl; [done|]. by rewrite Hv. Qed.

(** The insertion puts [x] behind the entries of its own start line. *)
Lemma insert_entry_stable z x l :
  StronglySorted by_start_line l →
  List.filter (on_line z) (insert_entry x l) =
  List.filter (on_line z) l ++ List.filter (on_line z) [x].
Proof.
  induction 1 as [|y l Hl IH Hy]; [done|]. cbn [insert_entry].
  destruct (start_line x <? start_line y) eqn:Hlt.
  - apply Z.ltb_lt in Hlt.
    change (x :: y :: l) with ([x] ++ (y :: l)). rewrite List.filter_app.
    destruct (on_line z x) eqn:Hx; simpl; rewrite Hx; [|by rewrite app_nil_r].
    apply Z.eqb_eq in Hx.
    assert (on_line z y = false) as ->.
    { apply Z.eqb_neq. lia. }
    rewrite filter_none; [done|].
    eapply Forall_impl; [exact Hy|].
    intros v Hv. apply Z.eqb_neq. unfold by_start_line in Hv. lia.
  - cbn [List.filter]. rewrite IH.
    by destruct (on_line z y).
Qed.

(** Stability: the entries of one start line keep their order. *)
Lemma sort_entries_stable z l :
  List.filter (on_line z) (sort_entries l) = List.filter (on_line z) l.
Proof.
  induction l as [|x l IH] using rev_ind; [done|].
  rewrite sort_entries_snoc, insert_entry_stable by apply sort_entries_sorted.
  by rewrite IH, List.filter_app.
Qed.

Lemma NoDup_fmap_elem_inj {A B : Type} (f : A → B) (l : list A) x y :
  NoDup (map f l) → x ∈ l → y ∈ l → f x = f y → x = y.
Proof.
  induction l as [|a l IH]; simpl; intros Hnd Hx Hy Hf.
  - by apply elem_of_nil in Hx.
  - apply NoDup_cons in Hnd as [Ha Hnd].
    apply elem_of_cons in Hx as [->|Hx]; apply elem_of_cons in Hy as [->|Hy].
    + done.
    + exfalso. apply Ha. rewrite Hf. by apply list_elem_of_fmap_2.
    + exfalso. apply Ha. rewrite <- Hf. by apply list_elem_of_fmap_2.
    + by apply IH.
Qed.

(** With pairwise distinct start lines there is one sorted arrangement. *)
Lemma sorted_unique (l1 : list pyval) :
  ∀ l2,
    StronglySorted by_start_line l1 → StronglySorted by_start_line l2 →
    Permutation l1 l2 → NoDup (map start_line l1) → l1 = l2.
Proof.
  induction l1 as [|a l1 IH]; intros l2 Hs1 Hs2 Hperm Hnd.
  - by apply Permutation_nil in Hperm.
  - destruct l2 as [|b l2]; [by apply Permutation_sym, Permutation_nil in Hperm|].
    apply StronglySorted_inv in Hs1 as [Hs1 Ha].
    apply StronglySorted_inv in Hs2 as [Hs2 Hb].
    assert (a = b) as <-.
    { assert (b ∈ a :: l1) as Hbin by (rewrite Hperm; apply list_elem_of_here).
      assert (a ∈ b :: l2) as Hain by (rewrite <- Hperm; apply list_elem_of_here).
      apply (NoDup_fmap_elem_inj start_line (a :: l1));
        [done | apply list_elem_of_here | done |].
      apply elem_of_cons in Hbin as [->|Hbin]; [done|].
      apply elem_of_cons in Hain as [->|Hain]; [done|].
      rewrite Forall_forall in Ha, Hb.
      specialize (Ha _ Hbin). specialize (Hb _ Hain).
      unfold by_start_line in *. lia. }
    f_equal. apply IH; [done | done | by eapply Permutation_cons_inv |].
    simpl in Hnd. by apply NoDup_cons in Hnd as [_ ?].
Qed.

Lemma sort_entries_order_free l1 l2 :
  Permutation l1 l2 → NoDup (map start_line l1) → sort_entries l1 = sort_entries l2.
Proof.
  intros Hperm Hnd. apply sorted_unique; try apply sort_entries_sorted.
  - by rewrite !sort_entries_perm.
  - by rewrite sort_entries_perm.
Qed.

(** *** The code computes the stable sort *)

Lemma well_formed_entry_key v :
  well_formed_entry v = true → as_int (sort_key v) = Some (start_line v).
Proof.
  destruct v as [| | | | |e]; try discriminate. simpl.
  intros [Hkey _]%andb_prop. apply bool_decide_eq_true in Hkey as [z Hz].
  unfold start_line. simpl. by rewrite Hz.
Qed.

Lemma py_lt_entries x y :
  well_formed_entry x = true → well_formed_entry y = true →
  py_lt (sort_key x) (sort_key y) = Val (start_line x <? start_line y).
Proof.
  intros Hx%well_formed_entry_key Hy%well_formed_entry_key.
  unfold py_lt. by rewrite Hx, Hy.
Qed.

Lemma tag_entries l :
  Forall (fun v => well_formed_entry v = true) l →
  mapM (fun d => k ← py_get d "startLine" (PInt 0); Val (k, d)) l = Val (map tag_key l).
Proof.
  induction 1 as [|v l Hv _ IH]; [done|].
  cbn [mapM]. rewrite IH.
  by destruct v as [| | | | |e].
Qed.

Lemma insert_by_key_entries x l :
  well_formed_entry x = true →
  Forall (fun v => well_formed_entry v = true) l →
  insert_by_key (tag_key x) (map tag_key l) = Val (map tag_key (insert_entry x l)).
Proof.
  intros Hx. induction 1 as [|y l Hy _ IH]; [done|].
  cbn [map insert_by_key insert_entry]. cbn [tag_key fst].
  rewrite py_lt_entries by done. cbn [mbind result_bind].
  destruct (start_line x <? start_line y); [done|].
  fold (tag_key x). by rewrite IH.
Qed.

Lemma insert_entry_well_formed x l :
  well_formed_entry x = true →
  Forall (fun v => well_formed_entry v = true) l →
  Forall (fun v => well_formed_entry v = true) (insert_entry x l).
Proof. intros Hx Hl. rewrite insert_entry_perm. by constructor. Qed.

Lemma foldM_insert_entries l :
  ∀ acc,
    Forall (fun v => well_formed_entry v = true) l →
    Forall (fun v => well_formed_entry v = true) acc →
    foldM (fun acc x => insert_by_key x acc) (map tag_key acc) (map tag_key l) =
    Val (map tag_key (fold_left (fun acc x => insert_entry x acc) l acc)).
Proof.
  induction l as [|x l IH]; intros acc Hl Hacc; [done|].
  apply Forall_cons in Hl as [Hx Hl].
  cbn [map foldM fold_left]. rewrite insert_by_key_entries by done.
  cbn [mbind result_bind]. apply IH; [done|]. by apply insert_entry_well_formed.
Qed.

Lemma py_sorted_entries l :
  Forall (fun v => well_formed_entry v = true) l →
  py_sorted (fun d => py_get d "startLine" (PInt 0)) l = Val (sort_entries l).
Proof.
  intros Hl. unfold py_sorted. rewrite tag_entries by done.
  cbn [mbind result_bind].
  pose proof (foldM_insert_entries l [] Hl ltac:(constructor)) as Hfold.
  cbn [map] in Hfold. rewrite Hfold. cbn [mbind result_bind].
  unfold sort_entries. f_equal. rewrite map_map. apply map_id.
Qed.

Lemma append_text_entry lines v :
  well_formed_entry v = true →
  append_text lines v =
  Val (lines ++ match entry_text v with Some s => [PStr s] | None => [] end).
Proof.
  destruct v as [| | | | |e]; try discriminate. simpl.
  intros [_ Htext]%andb_prop. unfold append_text. simpl.
  destruct (dict_get "functionDefinition" e) as [t|] eqn:Hfd; simpl.
  - by destruct t.
  - destruct (dict_get "defString" e) as [t|] eqn:Hds; simpl.
    + by destruct t.
    + by rewrite app_nil_r.
Qed.

Lemma foldM_append_text l :
  ∀ lines,
    Forall (fun v => well_formed_entry v = true) l →
    foldM append_text lines l = Val (lines ++ map PStr (omap entry_text l)).
Proof.
  induction l as [|v l IH]; intros lines Hl; simpl.
  - by rewrite app_nil_r.
  - apply Forall_cons in Hl as [Hv Hl].
    rewrite append_text_entry by done. cbn [mbind result_bind].
    rewrite IH by done. rewrite <- app_assoc.
    by destruct (entry_text v).
Qed.

Lemma py_join_texts sep (texts : list string) :
  py_join sep (map PStr texts) = Val (join sep texts).
Proof.
  unfold py_join.
  assert (mapM as_str (map PStr texts) = Val texts) as ->; [|done].
  induction texts as [|t texts IH]; [done|].
  cbn [map mapM as_str]. cbn [mbind result_bind]. by rewrite IH.
Qed.

Lemma rebuild_from_json_decoded (json_loads : string -> result pyval) json_string data :
  json_loads json_string = Val data →
  rebuild_from_json json_loads json_string = rebuild_from_data data.
Proof. intros Hdata. unfold rebuild_from_json. by rewrite Hdata. Qed.

(** What [rebuild_from_data] returns on a structure with a module map of
    well-formed entries. *)
Lemma rebuild_module (d m : pydict) :
  dict_get "module" d = Some (PDict m) →
  Forall (fun v => well_formed_entry v = true) (dict_values m) →
  rebuild_from_data (PDict d) =
  Val (join blank_line (omap entry_text (sort_entries (dict_values m)))).
Proof.
  intros Hmod Hwf. unfold rebuild_from_data. simpl.
  rewrite bool_decide_true by (rewrite Hmod; by eexists).
  cbn [mbind result_bind]. rewrite Hmod. cbn [mbind result_bind py_values].
  rewrite py_sorted_entries by done. cbn [mbind result_bind].
  rewrite foldM_append_text.
  - cbn [mbind result_bind app]. apply py_join_texts.
  - by rewrite sort_entries_perm.
Qed.

(** C2, as stated, fails in its last clause: with two entries of one start
    line the output follows the insertion order of the map. *)
Lemma C2_counterexample :
  rebuild_from_data tie_ab = Val ("def a(): pass" +:+ blank_line +:+ "def b(): pass") ∧
  rebuild_from_data tie_ba = Val ("def b(): pass" +:+ blank_line +:+ "def a(): pass") ∧
  rebuild_from_data tie_ab ≠ rebuild_from_data tie_ba.
Proof. split_and!; [reflexivity | reflexivity | discriminate]. Qed.

(** C2, amended: for a structure whose top level has a ["module"] map of
    well-formed entries (dictionaries whose startLine, when present, is an
    integer and whose text field is a text), the output is the texts of the
    entries, each entry giving its ["functionDefinition"] or, when that is
    absent, its ["defString"] (an entry with neither gives nothing), taken in
    ascending startLine order (0 when absent), entries of equal startLine
    staying in the insertion order of the map, and joined by exactly one
    blank line.  The output does not depend on the insertion order of the
    map when the start lines are pairwise distinct. *)
Theorem C2_rebuild_order (d m : pydict) :
  dict_get "module" d = Some (PDict m) →
  Forall (fun v => well_formed_entry v = true) (dict_values m) →
  ∃ ordered : list pyval,
    rebuild_from_data (PDict d) = Val (join blank_line (omap entry_text ordered)) ∧
    (∀ (json_loads : string -> result pyval) (json_string : string),
       json_loads json_string = Val (PDict d) →
       rebuild_from_json json_loads json_string
         = Val (join blank_line (omap entry_text ordered))) ∧
    Permutation ordered (dict_values m) ∧
    StronglySorted by_start_line ordered ∧
    (∀ z, List.filter (on_line z) ordered = List.filter (on_line z) (dict_values m)) ∧
    (∀ d' m' : pydict,
       dict_get "module" d' = Some (PDict m') →
       Permutation (dict_values m) (dict_values m') →
       NoDup (map start_line (dict_values m)) →
       rebuild_from_data (PDict d') = rebuild_from_data (PDict d)).
Proof.
  intros Hmod Hwf. exists (sort_entries (dict_values m)).
  split_and!.
  - by apply rebuild_module.
  - intros json_loads json_string Hdata.
    rewrite (rebuild_from_json_decoded _ _ _ Hdata). by apply rebuild_module.
  - apply sort_entries_perm.
  - apply sort_entries_sorted.
  - intros z. apply sort_entries_stable.
  - intros d' m' Hmod' Hperm Hnd.
    rewrite (rebuild_module d m), (rebuild_module d' m'); try done.
    + by rewrite (sort_entries_order_free _ _ Hperm Hnd).
    + by rewrite <- Hperm.
Qed.

(** C2, amended, at a map of four entries out of order. *)
Lemma C2_rebuild_order_witness :
  ∃ ordered : list pyval,
    rebuild_from_data (PDict [("module", PDict shuffled_module)])
      = Val (join blank_line (omap entry_text ordered)) ∧
    Permutation ordered (dict_values shuffled_module) ∧
    StronglySorted by_start_line ordered ∧
    (∀ z, List.filter (on_line z) ordered
          = List.filter (on_line z) (dict_values shuffled_module)).
Proof.
  destruct (C2_rebuild_order [("module", PDict shuffled_module)] shuffled_module)
    as (ordered & Hout & _ & Hperm & Hsorted & Hstable & _).
  - reflexivity.
  - repeat constructor.
  - by exists ordered.
Defined.

Example rebuild_shuffled :
  rebuild_from_data (PDict [("module", PDict shuffled_module)]) =
  Val ("def a(): pass" +:+ blank_line +:+ "def b(): pass" +:+ blank_line +:+ "def c(): pass").
Proof. reflexivity. Qed.

(** ** Decoding and execution: C9 and C6 *)

(** C9: on a text that is not well-formed, which the decoder rejects with
    [JSONDecodeError], [rebuild_from_json] fails with that error and returns
    no text. *)
Theorem C9_malformed_text_fails (json_loads : string -> result pyval)
    (json_string : string) (e : exn) :
  json_loads json_string = Raise e →
  exn_cls e = JSONDecodeError →
  rebuild_from_json json_loads json_string = Raise e ∧
  ∀ text, rebuild_from_json json_loads json_string ≠ Val text.
Proof.
  intros Hraise _. unfold rebuild_from_json. rewrite Hraise. by split.
Qed.

(** C9 at a text the decoder rejects. *)
Lemma C9_malformed_text_fails_witness :
  rebuild_from_json sample_loads "invalid json" = Raise (Exn JSONDecodeError EmptyString) ∧
  ∀ text, rebuild_from_json sample_loads "invalid json" ≠ Val text.
Proof.
  apply (C9_malformed_text_fails sample_loads "invalid json"); reflexivity.
Defined.




(** ** The exact copy: C1 *)

Lemma universal_newlines_id s :
  no_carriage_return s = true → universal_newlines s = s.
Proof.
  induction s as [|c s IH]; [done|]. simpl.
  intros [Hc Hs]%andb_prop. apply negb_true_iff in Hc. rewrite Hc.
  by rewrite IH.
Qed.

Lemma translate_newlines_posix s : translate_newlines posix_linesep s = s.
Proof.
  induction s as [|c s IH]; [done|]. simpl.
  destruct (is_char c LF) eqn:Hc; rewrite IH; [|done].
  apply Ascii.eqb_eq in Hc. by subst.
Qed.

Section ExactCopy.

Variable os_linesep : string.
Variable ast_parse : string -> result AST.
Variable unparse : AST -> string.
Variable json_loads : string -> result pyval.
Variable json_dumps : option nat -> pyval -> string.

(** The extraction of a file that is there and parses. *)
Lemma extract_file (fs : filesystem) (path bytes : string) (body : list AST) :
  fs !! path = Some bytes →
  ast_parse (universal_newlines bytes) = Val (Module body) →
  extract_all_definitions ast_parse unparse path fs =
  (Val (process_node unparse (Module body) (universal_newlines bytes) (Some path)), fs).
Proof.
  intros Hfile Hparse.
  unfold extract_all_definitions, mbind, io_bind, read_text, lift.
  by rewrite Hfile, Hparse.
Qed.

Lemma unit_file body code_string path :
  path ≠ EmptyString →
  field "file" (process_node unparse (Module body) code_string (Some path))
    = Some (PStr path).
Proof.
  intros Hpath. rewrite process_node_module. unfold unit_record, field.
  by destruct path.
Qed.

(** The branch taken on a structure with a ["file"] key: the file is read and
    written; neither the codec nor the definitions of the structure are
    consulted. *)
Lemma copy_branch (fs : filesystem) (d : pydict) (path bytes out : string) :
  dict_get "file" d = Some (PStr path) →
  fs !! path = Some bytes →
  rebuild_from_dict_or_json os_linesep json_loads json_dumps (PDict d) out fs =
  (Val (universal_newlines bytes),
   <[out := translate_newlines os_linesep (universal_newlines bytes)]> fs).
Proof.
  intros Hkey Hfile.
  unfold rebuild_from_dict_or_json, mbind, io_bind, mret, io_ret, lift.
  simpl. rewrite bool_decide_true by (rewrite Hkey; by eexists).
  rewrite Hkey. simpl. unfold read_text. rewrite Hfile.
  by unfold write_text.
Qed.

(** Extraction followed by rebuilding, for a file that is there and
    parses: the text the file is read as is returned and written. *)
Lemma round_trip (fs : filesystem) (path bytes out : string) (body : list AST) :
  path ≠ EmptyString →
  fs !! path = Some bytes →
  ast_parse (universal_newlines bytes) = Val (Module body) →
  ∃ su,
    extract_all_definitions ast_parse unparse path fs = (Val su, fs) ∧
    field "file" su = Some (PStr path) ∧
    rebuild_from_dict_or_json os_linesep json_loads json_dumps su out fs =
    (Val (universal_newlines bytes),
     <[out := translate_newlines os_linesep (universal_newlines bytes)]> fs).
Proof.
  intros Hpath Hfile Hparse. eexists. split; [by apply extract_file|].
  split; [by apply unit_file|].
  rewrite process_node_module.
  apply (copy_branch _ _ path); [|done].
  pose proof (unit_file body (universal_newlines bytes) path Hpath) as Hkey.
  by rewrite process_node_module in Hkey.
Qed.

End ExactCopy.

(** On a host whose line separator is LF, a file without carriage return
    comes back byte for byte. *)
Lemma round_trip_posix (ast_parse : string -> result AST) (unparse : AST -> string)
    (json_loads : string -> result pyval) (json_dumps : option nat -> pyval -> string)
    (fs : filesystem) (path bytes out : string) (body : list AST) :
  path ≠ EmptyString →
  fs !! path = Some bytes →
  no_carriage_return bytes = true →
  ast_parse bytes = Val (Module body) →
  ∃ su,
    extract_all_definitions ast_parse unparse path fs = (Val su, fs) ∧
    rebuild_from_dict_or_json posix_linesep json_loads json_dumps su out fs =
    (Val bytes, <[out := bytes]> fs).
Proof.
  intros Hpath Hfile Hcr Hparse.
  destruct (round_trip posix_linesep ast_parse unparse json_loads json_dumps
              fs path bytes out body) as (su & Hex & _ & Hre); try done.
  { by rewrite universal_newlines_id. }
  exists su. split; [done|].
  by rewrite translate_newlines_posix, universal_newlines_id in Hre.
Qed.

(** On a host whose line separator is CR LF it is a file with LF line ends
    that comes back changed. *)
Example round_trip_windows :
  translate_newlines windows_linesep (universal_newlines greet_text) = greet_bytes ∧
  greet_bytes ≠ greet_text.
Proof. split; [reflexivity | discriminate]. Qed.

(** C1 at a file with CR LF line ends, on a host whose line separator is LF:
    the structure carries the path, the copy branch is taken, and what is
    returned and written is the text with LF line ends, not the contents of
    the file. *)
Theorem C1_crlf_not_exact :
  ∃ su,
    extract_all_definitions sample_parse header_unparse "greet.py" greet_files
      = (Val su, greet_files) ∧
    field "file" su = Some (PStr "greet.py") ∧
    rebuild_from_dict_or_json posix_linesep sample_loads (fun _ _ => EmptyString)
      su "rebuilt.py" greet_files
      = (Val greet_text, <["rebuilt.py" := greet_text]> greet_files) ∧
    greet_text ≠ greet_bytes.
Proof.
  destruct (round_trip posix_linesep sample_parse header_unparse sample_loads
              (fun _ _ => EmptyString) greet_files "greet.py" greet_bytes "rebuilt.py"
              [FunctionDef "greet" [OtherStmt "return"] 1 (Some 2)])
    as (su & Hex & Hfile & Hre); [done | apply lookup_singleton_eq | reflexivity |].
  exists su. split_and!; [done | done | | discriminate].
  rewrite Hre. by rewrite translate_newlines_posix.
Qed.

(** * Further properties *)

(** ** Extraction and the file system *)

Lemma read_text_result path (fs : filesystem) :
  read_text path fs =
  (match fs !! path with
   | Some bytes => Val (universal_newlines bytes)
   | None => raise FileNotFoundError
   end, fs).
Proof. unfold read_text. by destruct (fs !! path). Qed.

Lemma extract_result ast_parse unparse path (fs : filesystem) :
  extract_all_definitions ast_parse unparse path fs =
  (file_contents ← match fs !! path with
                   | Some bytes => Val (universal_newlines bytes)
                   | None => raise FileNotFoundError
                   end;
   module ← ast_parse file_contents;
   Val (process_node unparse module file_contents (Some path)), fs).
Proof.
  unfold extract_all_definitions, mbind at 1 2, io_bind. rewrite read_text_result.
  destruct (fs !! path) as [bytes|]; [|done]. unfold lift. cbn [mbind result_bind].
  by destruct (ast_parse (universal_newlines bytes)).
Qed.

(** X1: extracting, as a dictionary or as JSON text, and loading a saved
    structure never change the file system, whether they succeed or fail. *)
Theorem X1_extraction_reads_only (ast_parse : string -> result AST)
    (unparse : AST -> string) (json_loads : string -> result pyval)
    (json_dumps : option nat -> pyval -> string) (path : string) (fs : filesystem) :
  snd (extract_all_definitions ast_parse unparse path fs) = fs ∧
  snd (get_ast_as_dict ast_parse unparse path fs) = fs ∧
  snd (get_ast_as_json ast_parse unparse json_dumps path fs) = fs ∧
  snd (load_ast_from_json json_loads path fs) = fs.
Proof.
  split_and!.
  - by rewrite extract_result.
  - unfold get_ast_as_dict. by rewrite extract_result.
  - unfold get_ast_as_json, mbind, io_bind. rewrite extract_result.
    by destruct (_ ≫= _).
  - unfold load_ast_from_json, mbind, io_bind. rewrite read_text_result.
    by destruct (fs !! path).
Qed.

(** X2: on a path that names no file, extraction (as a dictionary, as JSON
    text, or saved to a file) and loading fail, all with the error of the
    read, whatever the parser and the codec; the file system is left as it
    is, so saving creates no output file. *)
Theorem X2_missing_file (os_linesep : string) (path out : string) (fs : filesystem) :
  fs !! path = None →
  ∃ e : exn,
    ∀ (ast_parse : string -> result AST) (unparse : AST -> string)
      (json_loads : string -> result pyval)
      (json_dumps : option nat -> pyval -> string),
      extract_all_definitions ast_parse unparse path fs = (Raise e, fs) ∧
      get_ast_as_json ast_parse unparse json_dumps path fs = (Raise e, fs) ∧
      save_ast_as_json os_linesep ast_parse unparse json_dumps path out fs
        = (Raise e, fs) ∧
      load_ast_from_json json_loads path fs = (Raise e, fs).
Proof.
  intros Hnone. eexists. intros ast_parse unparse json_loads json_dumps. split_and!.
  - rewrite extract_result. by rewrite Hnone.
  - unfold get_ast_as_json, mbind, io_bind. rewrite extract_result. by rewrite Hnone.
  - unfold save_ast_as_json, mbind, io_bind. rewrite extract_result. by rewrite Hnone.
  - unfold load_ast_from_json, mbind, io_bind. rewrite read_text_result. by rewrite Hnone.
Qed.

(** X2 at the empty file system. *)
Lemma X2_missing_file_witness :
  ∃ e : exn,
    extract_all_definitions sample_parse header_unparse "nonexistent.py" ∅
      = (Raise e, ∅) ∧
    save_ast_as_json posix_linesep sample_parse header_unparse sample_dumps
      "nonexistent.py" "out.json" ∅ = (Raise e, ∅) ∧
    load_ast_from_json sample_loads "nonexistent.py" ∅ = (Raise e, ∅).
Proof.
  destruct (X2_missing_file posix_linesep "nonexistent.py" "out.json" ∅
              (lookup_empty _)) as [e He].
  exists e.
  destruct (He sample_parse header_unparse sample_loads sample_dumps)
    as (Hextract & _ & Hsave & Hload).
  by split_and!.
Defined.

(** X3: when the parser rejects the text of the file, its error leaves
    extraction and saving unchanged (no handler, no wrapping), and saving
    writes nothing. *)
Theorem X3_parse_error_propagates (os_linesep : string)
    (ast_parse : string -> result AST) (unparse : AST -> string)
    (json_dumps : option nat -> pyval -> string)
    (path out bytes : string) (e : exn) (fs : filesystem) :
  fs !! path = Some bytes →
  ast_parse (universal_newlines bytes) = Raise e →
  extract_all_definitions ast_parse unparse path fs = (Raise e, fs) ∧
  get_ast_as_json ast_parse unparse json_dumps path fs = (Raise e, fs) ∧
  save_ast_as_json os_linesep ast_parse unparse json_dumps path out fs = (Raise e, fs).
Proof.
  intros Hfile Hparse. split_and!.
  - rewrite extract_result, Hfile. cbn [mbind result_bind]. by rewrite Hparse.
  - unfold get_ast_as_json, mbind at 1, io_bind. rewrite extract_result, Hfile.
    cbn [mbind result_bind]. by rewrite Hparse.
  - unfold save_ast_as_json, mbind at 1, io_bind. rewrite extract_result, Hfile.
    cbn [mbind result_bind]. by rewrite Hparse.
Qed.

(** X3 at a file whose text has no tree. *)
Lemma X3_parse_error_propagates_witness :
  extract_all_definitions sample_parse header_unparse "broken.py" broken_files
    = (raise SyntaxError, broken_files) ∧
  get_ast_as_json sample_parse header_unparse sample_dumps "broken.py" broken_files
    = (raise SyntaxError, broken_files) ∧
  save_ast_as_json posix_linesep sample_parse header_unparse sample_dumps
    "broken.py" "broken.json" broken_files = (raise SyntaxError, broken_files).
Proof.
  apply (X3_parse_error_propagates posix_linesep sample_parse header_unparse sample_dumps
           "broken.py" "broken.json" broken_function).
  - apply lookup_singleton_eq.
  - reflexivity.
Defined.

(** ** Text written and read back *)


Lemma save_result os_linesep ast_parse unparse json_dumps path out (fs : filesystem) :
  save_ast_as_json os_linesep ast_parse unparse json_dumps path out fs =
  match fst (extract_all_definitions ast_parse unparse path fs) with
  | Val su =>
      (Val tt, <[out := translate_newlines os_linesep (json_dumps (Some 4%nat) su)]> fs)
  | Raise e => (Raise e, fs)
  end.
Proof.
  unfold save_ast_as_json, mbind at 1, io_bind. rewrite extract_result. simpl.
  by destruct (_ ≫= _).
Qed.



(** X5: [save_ast_as_json] changes no file but the one at its output path,
    and changes nothing at all when it fails. *)
Theorem X5_save_touches_output_only (os_linesep : string)
    (ast_parse : string -> result AST) (unparse : AST -> string)
    (json_dumps : option nat -> pyval -> string)
    (path out other : string) (fs : filesystem) :
  other ≠ out →
  snd (save_ast_as_json os_linesep ast_parse unparse json_dumps path out fs) !! other
    = fs !! other ∧
  ∀ e, fst (save_ast_as_json os_linesep ast_parse unparse json_dumps path out fs)
         = Raise e →
       snd (save_ast_as_json os_linesep ast_parse unparse json_dumps path out fs) = fs.
Proof.
  intros Hother. rewrite save_result.
  destruct (fst (extract_all_definitions ast_parse unparse path fs)) as [su|e']; simpl.
  - split; [by rewrite lookup_insert_ne | done].
  - done.
Qed.

(** X5 at [greet.py]: the source file is as it was. *)
Lemma X5_save_touches_output_only_witness :
  snd (save_ast_as_json posix_linesep sample_parse header_unparse sample_dumps
         "greet.py" "greet_ast.json" greet_files) !! "greet.py"
    = Some greet_bytes.
Proof.
  destruct (X5_save_touches_output_only posix_linesep sample_parse header_unparse
              sample_dumps "greet.py" "greet_ast.json" "greet.py" greet_files)
    as [Hsame _]; [done|].
  rewrite Hsame. apply lookup_singleton_eq.
Defined.

(** ** Rebuilding to a file *)

Lemma rebuild_decodes_text os_linesep json_loads json_dumps data out (fs : filesystem) :
  rebuild_from_dict_or_json os_linesep json_loads json_dumps data out fs =
  match data with
  | PStr json_string =>
      match json_loads json_string with
      | Val decoded => rebuild_structure os_linesep json_loads json_dumps decoded out fs
      | Raise e => (Raise e, fs)
      end
  | _ => rebuild_structure os_linesep json_loads json_dumps data out fs
  end.
Proof.
  unfold rebuild_from_dict_or_json, rebuild_structure.
  by destruct data.
Qed.

Lemma rebuild_structure_result os_linesep json_loads json_dumps data out
    (fs : filesystem) :
  (∃ text, rebuild_structure os_linesep json_loads json_dumps data out fs
           = (Val text, <[out := translate_newlines os_linesep text]> fs)) ∨
  (∃ e, rebuild_structure os_linesep json_loads json_dumps data out fs = (Raise e, fs)).
Proof.
  unfold rebuild_structure, mbind, io_bind, lift, mret, io_ret, write_text.
  destruct (py_contains "file" data) as [[|]|e]; [| |right; by eexists].
  - destruct (py_getitem data "file") as [path|e]; [|right; by eexists].
    unfold open_read, read_text, lift.
    destruct path as [| | |p| |]; try (right; by eexists).
    destruct (fs !! p); [left|right]; by eexists.
  - destruct (rebuild_from_json json_loads (json_dumps None data));
      [left|right]; by eexists.
Qed.

Lemma rebuild_result os_linesep json_loads json_dumps data out (fs : filesystem) :
  (∃ text, rebuild_from_dict_or_json os_linesep json_loads json_dumps data out fs
           = (Val text, <[out := translate_newlines os_linesep text]> fs)) ∨
  (∃ e, rebuild_from_dict_or_json os_linesep json_loads json_dumps data out fs
        = (Raise e, fs)).
Proof.
  rewrite rebuild_decodes_text.
  destruct data as [| | |s| |]; try apply rebuild_structure_result.
  destruct (json_loads s); [apply rebuild_structure_result | right; by eexists].
Qed.

(** X6: whatever its argument, [rebuild_from_dict_or_json] changes no file but
    the one at its output path; when it returns, that file holds the text it
    returns, as a text-mode write stores it. *)
Theorem X6_rebuild_touches_output_only (os_linesep : string)
    (json_loads : string -> result pyval) (json_dumps : option nat -> pyval -> string)
    (data : pyval) (out other : string) (fs : filesystem) :
  other ≠ out →
  snd (rebuild_from_dict_or_json os_linesep json_loads json_dumps data out fs) !! other
    = fs !! other ∧
  (∀ text,
     fst (rebuild_from_dict_or_json os_linesep json_loads json_dumps data out fs)
       = Val text →
     snd (rebuild_from_dict_or_json os_linesep json_loads json_dumps data out fs) !! out
       = Some (translate_newlines os_linesep text)).
Proof.
  intros Hother.
  destruct (rebuild_result os_linesep json_loads json_dumps data out fs)
    as [[text ->]|[e ->]]; simpl.
  - split; [by rewrite lookup_insert_ne|].
    intros ? [= <-]. apply lookup_insert_eq.
  - done.
Qed.

(** X6 at the structure of [greet.py]: the source file is as it was. *)
Lemma X6_rebuild_touches_output_only_witness :
  snd (rebuild_from_dict_or_json posix_linesep sample_loads sample_dumps
         greet_unit "rebuilt.py" greet_files) !! "greet.py" = Some greet_bytes.
Proof.
  destruct (X6_rebuild_touches_output_only posix_linesep sample_loads sample_dumps
              greet_unit "rebuilt.py" "greet.py" greet_files) as [Hsame _]; [done|].
  rewrite Hsame. apply lookup_singleton_eq.
Defined.

(** X7: when the ["file"] key of a structure names a path where no file is,
    [rebuild_from_dict_or_json] fails with the error of the read and writes
    nothing, whatever the codec and whatever else the structure holds: it
    does not fall back to the definitions of the structure. *)
Theorem X7_missing_original (os_linesep : string)
    (d : pydict) (path out : string) (fs : filesystem) :
  dict_get "file" d = Some (PStr path) →
  fs !! path = None →
  ∃ e : exn,
    ∀ (json_loads : string -> result pyval)
      (json_dumps : option nat -> pyval -> string),
      rebuild_from_dict_or_json os_linesep json_loads json_dumps (PDict d) out fs
        = (Raise e, fs).
Proof.
  intros Hkey Hnone. eexists. intros json_loads json_dumps.
  rewrite rebuild_decodes_text.
  unfold rebuild_structure, mbind, io_bind, lift. simpl.
  rewrite bool_decide_true by (rewrite Hkey; by eexists).
  rewrite Hkey. simpl. unfold read_text. by rewrite Hnone.
Qed.

(** X7 at a structure whose file is gone. *)
Lemma X7_missing_original_witness :
  ∃ e : exn,
    rebuild_from_dict_or_json posix_linesep sample_loads sample_dumps
      (PDict stale_unit) "rebuilt.py" greet_files = (Raise e, greet_files).
Proof.
  destruct (X7_missing_original posix_linesep stale_unit "gone.py" "rebuilt.py"
              greet_files eq_refl) as [e He].
  - apply lookup_singleton_ne. discriminate.
  - exists e. apply He.
Defined.

(** X8: [rebuild_from_dict_or_json] gives the same result and the same file
    on the JSON text of a structure as on the structure the text decodes to,
    unless the text decodes to a text. *)
Theorem X8_text_or_structure (os_linesep : string)
    (json_loads : string -> result pyval) (json_dumps : option nat -> pyval -> string)
    (json_string : string) (data : pyval) (out : string) (fs : filesystem) :
  json_loads json_string = Val data →
  (∀ text, data ≠ PStr text) →
  rebuild_from_dict_or_json os_linesep json_loads json_dumps (PStr json_string) out fs =
  rebuild_from_dict_or_json os_linesep json_loads json_dumps data out fs.
Proof.
  intros Hdata Hkind. rewrite !rebuild_decodes_text. rewrite Hdata.
  destruct data as [| | |text| |]; try reflexivity.
  by destruct (Hkind text).
Qed.

(** X8 at the text of the structure of [greet.py]. *)
Lemma X8_text_or_structure_witness :
  rebuild_from_dict_or_json posix_linesep greet_loads sample_dumps
    (PStr (compact_json greet_unit)) "rebuilt.py" greet_files =
  rebuild_from_dict_or_json posix_linesep greet_loads sample_dumps
    greet_unit "rebuilt.py" greet_files.
Proof.
  apply (X8_text_or_structure posix_linesep greet_loads sample_dumps
           (compact_json greet_unit) greet_unit).
  - reflexivity.
  - intros text. discriminate.
Defined.

(** X9: on a structure without ["file"] key, which the codec takes to itself,
    what [rebuild_from_dict_or_json] returns is the text [rebuild_from_json]
    makes of the structure, and the file at the output path then holds it,
    as a text-mode write stores it. *)
Theorem X9_regenerates_without_path (os_linesep : string)
    (json_loads : string -> result pyval) (json_dumps : option nat -> pyval -> string)
    (d : pydict) (out text : string) (fs fs' : filesystem) :
  dict_get "file" d = None →
  json_loads (json_dumps None (PDict d)) = Val (PDict d) →
  rebuild_from_dict_or_json os_linesep json_loads json_dumps (PDict d) out fs
    = (Val text, fs') →
  rebuild_from_json json_loads (json_dumps None (PDict d)) = Val text ∧
  rebuild_from_data (PDict d) = Val text ∧
  fs' = <[out := translate_newlines os_linesep text]> fs.
Proof.
  intros Hkey Hcodec. rewrite rebuild_decodes_text.
  unfold rebuild_structure, mbind at 1 2 3, io_bind, lift. cbn [py_contains].
  rewrite bool_decide_false by (rewrite Hkey; by intros [? ?]).
  rewrite (rebuild_from_json_decoded _ _ _ Hcodec).
  destruct (rebuild_from_data (PDict d)) as [text'|e]; [|discriminate].
  unfold write_text, mbind, io_bind, mret, io_ret. by intros [= -> <-].
Qed.

(** X9 at a map of four entries out of order. *)
Lemma X9_regenerates_without_path_witness :
  rebuild_from_data shuffled_unit =
  Val ("def a(): pass" +:+ blank_line +:+ "def b(): pass" +:+ blank_line +:+ "def c(): pass") ∧
  snd (rebuild_from_dict_or_json posix_linesep shuffled_loads sample_dumps
         shuffled_unit "rebuilt.py" ∅) =
  <["rebuilt.py" :=
      "def a(): pass" +:+ blank_line +:+ "def b(): pass" +:+ blank_line +:+ "def c(): pass"]> ∅.
Proof.
  destruct (X9_regenerates_without_path posix_linesep shuffled_loads sample_dumps
              [("module", PDict shuffled_module)] "rebuilt.py"
              ("def a(): pass" +:+ blank_line +:+ "def b(): pass" +:+ blank_line
                 +:+ "def c(): pass")
              ∅ _ eq_refl eq_refl eq_refl)
    as (_ & Hdata & Hfile).
  split; [exact Hdata|]. simpl. exact Hfile.
Defined.

(** X10: when the ["file"] key of a structure names a path, what
    [rebuild_from_dict_or_json] returns is the text the file at that path
    reads as, whatever else the structure holds, a module that could not be
    regenerated included, and whatever the codec; the file at the output
    path then holds that text, as a text-mode write stores it. *)
Theorem X10_path_takes_precedence (os_linesep : string)
    (json_loads : string -> result pyval) (json_dumps : option nat -> pyval -> string)
    (d : pydict) (path out text : string) (fs fs' : filesystem) :
  dict_get "file" d = Some (PStr path) →
  rebuild_from_dict_or_json os_linesep json_loads json_dumps (PDict d) out fs
    = (Val text, fs') →
  ∃ bytes,
    fs !! path = Some bytes ∧
    text = universal_newlines bytes ∧
    fs' = <[out := translate_newlines os_linesep text]> fs.
Proof.
  intros Hkey. rewrite rebuild_decodes_text.
  unfold rebuild_structure, mbind, io_bind, lift, mret, io_ret. simpl.
  rewrite bool_decide_true by (rewrite Hkey; by eexists).
  rewrite Hkey. simpl. unfold read_text.
  destruct (fs !! path) as [bytes|]; [|discriminate].
  unfold write_text. intros [= <- <-]. by exists bytes.
Qed.

(** X10 at a structure whose module is a number. *)
Lemma X10_path_takes_precedence_witness :
  (∃ bytes,
     greet_files !! "greet.py" = Some bytes ∧
     greet_text = universal_newlines bytes ∧
     snd (rebuild_from_dict_or_json posix_linesep sample_loads sample_dumps
            (PDict odd_unit) "rebuilt.py" greet_files)
       = <["rebuilt.py" := translate_newlines posix_linesep greet_text]> greet_files) ∧
  rebuild_from_data (PDict odd_unit) = raise AttributeError.
Proof.
  split; [|reflexivity].
  apply (X10_path_takes_precedence posix_linesep sample_loads sample_dumps
           odd_unit "greet.py" "rebuilt.py" greet_text greet_files).
  - reflexivity.
  - reflexivity.
Defined.

(** ** Regenerating what was extracted *)

Lemma member_well_formed (unparse : AST -> string) code_string item :
  is_definition item = true →
  well_formed_entry (member unparse code_string item) = true ∧
  start_line (member unparse code_string item) = node_lineno item ∧
  entry_text (member unparse code_string item) = Some (unparse item).
Proof.
  intros Hdef. unfold member. rewrite process_node_definition by done.
  unfold definition_record, well_formed_entry, start_line, sort_key, entry_text.
  by destruct (truthy_text (get_docstring (node_body item))).
Qed.

Lemma members_texts (unparse : AST -> string) code_string (l : list AST) :
  Forall (fun item => is_definition item = true) l →
  omap entry_text (map (member unparse code_string) l) = map unparse l.
Proof.
  induction 1 as [|item l Hitem _ IH]; [done|]. csimpl.
  destruct (member_well_formed unparse code_string item Hitem) as (_ & _ & ->).
  by f_equal.
Qed.

Lemma members_sorted (unparse : AST -> string) code_string (l : list AST) :
  Forall (fun item => is_definition item = true) l →
  StronglySorted by_lineno l →
  StronglySorted by_start_line (map (member unparse code_string) l).
Proof.
  intros Hdefs. induction 1 as [|item l Hl IH Hitem]; [constructor|].
  apply Forall_cons in Hdefs as [Hdef Hdefs]. simpl.
  constructor; [by apply IH|].
  apply Forall_forall. intros v Hv.
  apply list_elem_of_fmap in Hv as (other & -> & Hother).
  rewrite Forall_forall in Hitem, Hdefs. unfold by_start_line.
  destruct (member_well_formed unparse code_string item Hdef) as (_ & -> & _).
  destruct (member_well_formed unparse code_string other (Hdefs _ Hother))
    as (_ & -> & _).
  by apply Hitem.
Qed.

(** X11: the record of a single class or function definition rebuilds to
    the text the unparser gave for it, alone. *)
Theorem X11_definition_rebuilds_to_its_text (unparse : AST -> string)
    (node : AST) (code_string : string) (file_path : option string) :
  is_definition node = true →
  rebuild_from_data (process_node unparse node code_string file_path)
    = Val (unparse node).
Proof.
  intros Hdef. rewrite process_node_definition by done.
  unfold definition_record.
  by destruct (truthy_text (get_docstring (node_body node))).
Qed.

(** X11 at the class [Outer]. *)
Lemma X11_definition_rebuilds_to_its_text_witness :
  rebuild_from_data (process_node header_unparse outer_class outer_source None)
    = Val "class Outer:".
Proof.
  apply (X11_definition_rebuilds_to_its_text header_unparse outer_class outer_source None).
  reflexivity.
Defined.

Lemma sorted_snoc_inv (l : list pyval) x :
  StronglySorted by_start_line (l ++ [x]) →
  StronglySorted by_start_line l ∧ Forall (fun y => start_line y ≤ start_line x) l.
Proof.
  induction l as [|y l IH]; simpl; intros Hs; [split; constructor|].
  apply StronglySorted_inv in Hs as [Hs Hy].
  destruct (IH Hs) as [Hl Hle]. split.
  - constructor; [done|]. by apply Forall_app in Hy as [? _].
  - constructor; [|done]. apply Forall_app in Hy as [_ Hx].
    by apply Forall_inv in Hx.
Qed.

Lemma insert_entry_last x l :
  Forall (fun y => start_line y ≤ start_line x) l → insert_entry x l = l ++ [x].
Proof.
  induction 1 as [|y l Hy _ IH]; [done|]. simpl.
  assert ((start_line x <? start_line y) = false) as -> by (apply Z.ltb_ge; lia).
  by rewrite IH.
Qed.

(** A list that is in order is sorted to itself. *)
Lemma sort_entries_sorted_id l :
  StronglySorted by_start_line l → sort_entries l = l.
Proof.
  induction l as [|x l IH] using rev_ind; [done|].
  intros [Hl Hle]%sorted_snoc_inv.
  rewrite sort_entries_snoc, IH by done. by apply insert_entry_last.
Qed.

(** X12: when the class and function definitions at the top of a module have
    pairwise distinct names and come in the order of their line numbers, the
    record of the module rebuilds to the texts the unparser gave for them, in
    source order, one blank line between two; the other statements of the
    module leave nothing. *)
Theorem X12_module_rebuilds_to_its_definitions (unparse : AST -> string)
    (body : list AST) (code_string : string) (file_path : option string) :
  NoDup (map node_name (direct_definitions body)) →
  StronglySorted by_lineno (direct_definitions body) →
  rebuild_from_data (process_node unparse (Module body) code_string file_path)
    = Val (join blank_line (map unparse (direct_definitions body))).
Proof.
  unfold direct_definitions. intros Hnames Hlines.
  assert (Forall (fun item => is_definition item = true)
            (List.filter is_definition body)) as Hdefs.
  { apply Forall_forall. intros item Hitem.
    by apply list_elem_of_In, filter_In in Hitem as [_ ?]. }
  rewrite process_node_module.
  assert (dict_get "module"
            (unit_record (member unparse code_string) body code_string file_path)
          = Some (PDict (module_map (member unparse code_string) body))) as Hmod.
  { unfold unit_record. by destruct (truthy_text file_path). }
  assert (dict_values (module_map (member unparse code_string) body)
          = map (member unparse code_string) (List.filter is_definition body)) as Hvalues.
  { rewrite module_map_distinct by done. unfold dict_values. by rewrite map_map. }
  rewrite (rebuild_module _ _ Hmod); rewrite Hvalues.
  - rewrite sort_entries_sorted_id.
    + by rewrite members_texts.
    + by apply members_sorted.
  - apply Forall_fmap. eapply Forall_impl; [exact Hdefs|].
    intros item Hitem. simpl. by apply member_well_formed.
Qed.

(** X12 at a module of three definitions and an import. *)
Lemma X12_module_rebuilds_to_its_definitions_witness :
  rebuild_from_data
    (process_node header_unparse (Module ordered_body) ordered_source (Some "ordered.py"))
    = Val ("def first():" +:+ blank_line +:+ "class Second:" +:+ blank_line +:+
           "async def third():").
Proof.
  apply (X12_module_rebuilds_to_its_definitions header_unparse ordered_body
           ordered_source (Some "ordered.py")).
  - vm_compute. repeat (constructor; [set_solver|]). constructor.
  - repeat match goal with
           | |- StronglySorted _ _ => constructor
           | |- Forall _ _ => constructor
           end; unfold by_lineno; simpl; lia.
Defined.

(** X13: when the start lines of a module map are already in order along the
    map, in particular when no entry has one, the output is the texts of the
    entries in the insertion order of the map. *)
Theorem X13_map_order_kept (d m : pydict) :
  dict_get "module" d = Some (PDict m) →
  Forall (fun v => well_formed_entry v = true) (dict_values m) →
  StronglySorted by_start_line (dict_values m) →
  rebuild_from_data (PDict d) = Val (join blank_line (omap entry_text (dict_values m))).
Proof.
  intros Hmod Hwf Hsorted. rewrite (rebuild_module _ _ Hmod Hwf).
  by rewrite sort_entries_sorted_id.
Qed.

(** X13 at a map of two legacy entries without start line. *)
Lemma X13_map_order_kept_witness :
  rebuild_from_data (PDict [("module", PDict legacy_module)])
    = Val ("def z(): pass" +:+ blank_line +:+ "def a(): pass").
Proof.
  apply (X13_map_order_kept [("module", PDict legacy_module)] legacy_module).
  - reflexivity.
  - repeat constructor.
  - repeat match goal with
           | |- StronglySorted _ _ => constructor
           | |- Forall _ _ => constructor
           end; by vm_compute.
Defined.

(** ** The errors of a rebuild *)

Lemma raises_kind_errors_bind {A B : Type} (m : result A) (f : A → result B) :
  raises_kind_errors m →
  (∀ a, m = Val a → raises_kind_errors (f a)) →
  raises_kind_errors (m ≫= f).
Proof. destruct m as [a|e]; simpl; [intros _ Hf; by apply Hf | done]. Qed.

Lemma py_contains_kind key obj : raises_kind_errors (py_contains key obj).
Proof. destruct obj; simpl; try done; by left. Qed.

(** A subscript behind its membership test raises no [KeyError]. *)
Lemma py_getitem_guarded key obj :
  py_contains key obj = Val true → raises_kind_errors (py_getitem obj key).
Proof.
  destruct obj as [| | |s|items|d]; simpl; try discriminate; try (intros _; by left).
  intros [= Hin]. apply bool_decide_eq_true in Hin as [v ->]. done.
Qed.

Lemma py_lt_kind a b : raises_kind_errors (py_lt a b).
Proof.
  unfold py_lt. destruct (as_int a), (as_int b); try done;
    destruct a, b; simpl; try done; by left.
Qed.

Lemma insert_by_key_kind x l : raises_kind_errors (insert_by_key x l).
Proof.
  induction l as [|y l IH]; [done|]. cbn [insert_by_key].
  apply raises_kind_errors_bind; [apply py_lt_kind|].
  intros [|] _; [done|]. apply raises_kind_errors_bind; [done | done].
Qed.

Lemma foldM_kind {A B : Type} (f : B → A → result B) (l : list A) :
  (∀ acc x, raises_kind_errors (f acc x)) →
  ∀ acc, raises_kind_errors (foldM f acc l).
Proof.
  intros Hf. induction l as [|x l IH]; intros acc; [done|]. cbn [foldM].
  apply raises_kind_errors_bind; [apply Hf | intros; apply IH].
Qed.

Lemma mapM_kind {A B : Type} (f : A → result B) (l : list A) :
  (∀ x, raises_kind_errors (f x)) → raises_kind_errors (mapM f l).
Proof.
  intros Hf. induction l as [|x l IH]; [done|]. cbn [mapM].
  apply raises_kind_errors_bind; [apply Hf|]. intros y _.
  apply raises_kind_errors_bind; [apply IH | done].
Qed.

Lemma py_sorted_kind l :
  raises_kind_errors (py_sorted (fun d => py_get d "startLine" (PInt 0)) l).
Proof.
  unfold py_sorted. apply raises_kind_errors_bind.
  - apply mapM_kind. intros d. apply raises_kind_errors_bind; [|done].
    destruct d; simpl; try done; by right.
  - intros keyed _. apply raises_kind_errors_bind; [|done].
    apply foldM_kind. intros acc x. apply insert_by_key_kind.
Qed.

Lemma append_text_kind lines d : raises_kind_errors (append_text lines d).
Proof.
  unfold append_text.
  apply raises_kind_errors_bind; [apply py_contains_kind|].
  intros [|] Htext.
  - apply raises_kind_errors_bind; [by apply py_getitem_guarded | done].
  - apply raises_kind_errors_bind; [apply py_contains_kind|].
    intros [|] Hlegacy; [|done].
    apply raises_kind_errors_bind; [by apply py_getitem_guarded | done].
Qed.

Lemma py_join_kind sep items : raises_kind_errors (py_join sep items).
Proof.
  unfold py_join. apply raises_kind_errors_bind; [|done].
  apply mapM_kind. intros v. destruct v; simpl; try done; by left.
Qed.

Lemma rebuild_from_data_kind data : raises_kind_errors (rebuild_from_data data).
Proof.
  unfold rebuild_from_data.
  apply raises_kind_errors_bind; [apply py_contains_kind|].
  intros [|] Hmodule.
  - apply raises_kind_errors_bind; [|intros; apply py_join_kind].
    apply raises_kind_errors_bind; [by apply py_getitem_guarded|].
    intros module _. apply raises_kind_errors_bind.
    { destruct module; simpl; try done; by right. }
    intros defs _. apply raises_kind_errors_bind; [apply py_sorted_kind|].
    intros defs_sorted _. apply foldM_kind. apply append_text_kind.
  - apply raises_kind_errors_bind; [apply append_text_kind|].
    intros; apply py_join_kind.
Qed.

(** X14: [rebuild_from_json] fails only with the error of the decoder or,
    on a structure of the wrong shape, with [TypeError] or [AttributeError];
    it never raises [KeyError], each subscript standing behind a membership
    test. *)
Theorem X14_rebuild_errors (json_loads : string -> result pyval)
    (json_string : string) (e : exn) :
  rebuild_from_json json_loads json_string = Raise e →
  json_loads json_string = Raise e ∨
  (∃ data, json_loads json_string = Val data ∧
           rebuild_from_data data = Raise e ∧
           (exn_cls e = TypeError ∨ exn_cls e = AttributeError) ∧
           exn_cls e ≠ KeyError).
Proof.
  unfold rebuild_from_json. destruct (json_loads json_string) as [data|e'] eqn:Hdata.
  - cbn [mbind result_bind]. intros Hraise. right. exists data.
    pose proof (rebuild_from_data_kind data) as Hkind. rewrite Hraise in Hkind.
    split_and!; [done | done | done |].
    destruct Hkind as [-> | ->]; discriminate.
  - cbn [mbind result_bind]. intros [= ->]. by left.
Qed.

(** X14 at a structure whose module is a number. *)
Lemma X14_rebuild_errors_witness :
  table_loads [("odd", PDict odd_unit)] "odd" = Raise (Exn AttributeError EmptyString) ∨
  (∃ data, table_loads [("odd", PDict odd_unit)] "odd" = Val data ∧
           rebuild_from_data data = Raise (Exn AttributeError EmptyString) ∧
           (AttributeError = TypeError ∨ AttributeError = AttributeError) ∧
           AttributeError ≠ KeyError).
Proof.
  apply (X14_rebuild_errors (table_loads [("odd", PDict odd_unit)]) "odd"
           (Exn AttributeError EmptyString)).
  reflexivity.
Defined.

(** X15: an error of the decoding or of the rebuilding leaves
    [execute_rebuilt] as it is, not as a [RuntimeError]: only compiling and
    executing stand in the [try]; the evaluator plays no part.  Such an error
    is the decoder's, or a [TypeError] or an [AttributeError]. *)
Theorem X15_rebuild_errors_not_wrapped (json_loads : string -> result pyval)
    (object code : Type) (py_compile : string -> result code)
    (py_exec : code -> list (string * object) -> result (list (string * object)))
    (py_str : exn -> result string)
    (json_string : string) (e : exn) :
  rebuild_from_json json_loads json_string = Raise e →
  execute_rebuilt json_loads object code py_compile py_exec py_str json_string = Raise e ∧
  (json_loads json_string = Raise e ∨
   exn_cls e = TypeError ∨ exn_cls e = AttributeError).
Proof.
  intros Hraise. split.
  - unfold execute_rebuilt. by rewrite Hraise.
  - unfold rebuild_from_json in Hraise.
    destruct (json_loads json_string) as [data|e'].
    + right. pose proof (rebuild_from_data_kind data) as Hkind.
      cbn [mbind result_bind] in Hraise. by rewrite Hraise in Hkind.
    + left. cbn [mbind result_bind] in Hraise. by injection Hraise as ->.
Qed.

(** X15 at a text the decoder rejects. *)
Lemma X15_rebuild_errors_not_wrapped_witness :
  execute_rebuilt sample_loads string string sample_compile sample_exec sample_str
    "invalid json"
    = raise JSONDecodeError.
Proof.
  apply (X15_rebuild_errors_not_wrapped sample_loads string string sample_compile
           sample_exec sample_str "invalid json").
  reflexivity.
Defined.

(** ** The shape of the records *)

(** X16: the record of a class or function definition has the keys
    functionDefinition, docstring (only when there is a docstring),
    functions, summary, classes, startLine and endLine, in this order, and
    its summary is the empty list; the record of a module has the keys
    summary, file (only when a path that is not empty was given), module,
    startLine and endLine, in this order, its summary is the empty list and
    its file is the path. *)
Theorem X16_record_keys (unparse : AST -> string) (node : AST) (body : list AST)
    (code_string : string) (file_path : option string) :
  is_definition node = true →
  record_keys (process_node unparse node code_string file_path) =
    "functionDefinition" ::
    (if truthy_text (get_docstring (node_body node)) then ["docstring"] else []) ++
    ["functions"; "summary"; "classes"; "startLine"; "endLine"] ∧
  field "summary" (process_node unparse node code_string file_path) = Some (PList []) ∧
  record_keys (process_node unparse (Module body) code_string file_path) =
    "summary" :: (if truthy_text file_path then ["file"] else []) ++
    ["module"; "startLine"; "endLine"] ∧
  field "summary" (process_node unparse (Module body) code_string file_path)
    = Some (PList []) ∧
  field "file" (process_node unparse (Module body) code_string file_path) =
    (if truthy_text file_path then PStr <$> file_path else None).
Proof.
  intros Hdef. rewrite process_node_definition by done. rewrite process_node_module.
  unfold definition_record, unit_record, record_keys, field.
  destruct (truthy_text (get_docstring (node_body node)));
    destruct file_path as [[|c path]|]; by split_and!.
Qed.

(** X16 at the class [Outer] and its module. *)
Lemma X16_record_keys_witness :
  record_keys (process_node header_unparse outer_class outer_source (Some "outer.py")) =
    ["functionDefinition"; "docstring"; "functions"; "summary"; "classes";
     "startLine"; "endLine"] ∧
  field "summary" (process_node header_unparse outer_class outer_source (Some "outer.py"))
    = Some (PList []) ∧
  record_keys
    (process_node header_unparse (Module [outer_class]) outer_source (Some "outer.py")) =
    ["summary"; "file"; "module"; "startLine"; "endLine"] ∧
  field "summary"
    (process_node header_unparse (Module [outer_class]) outer_source (Some "outer.py"))
    = Some (PList []) ∧
  field "file"
    (process_node header_unparse (Module [outer_class]) outer_source (Some "outer.py"))
    = Some (PStr "outer.py").
Proof.
  apply (X16_record_keys header_unparse outer_class [outer_class] outer_source
           (Some "outer.py")).
  reflexivity.
Defined.

Lemma filter_filter_and {A : Type} (f g : A → bool) (l : list A) :
  List.filter f (List.filter g l) = List.filter (fun x => g x && f x) l.
Proof.
  induction l as [|x l IH]; [done|]. simpl.
  destruct (g x); simpl; [destruct (f x)|]; by rewrite IH.
Qed.

(** The keys a loop of insertions leaves: those that were there, then the
    new names where they first occur. *)
Lemma fold_module_step_keys pn (body : list AST) :
  ∀ m : pydict,
    dict_keys (fold_left (module_step pn) body m) =
    dict_keys m ++
    List.filter (fun k => negb (bool_decide (k ∈ dict_keys m)))
      (first_occurrences (map node_name (List.filter is_definition body))).
Proof.
  induction body as [|item body IH]; intros m; simpl.
  - by rewrite app_nil_r.
  - rewrite IH. unfold module_step. destruct (is_definition item); [|done].
    cbn [map first_occurrences List.filter]. rewrite dict_keys_set.
    rewrite filter_filter_and.
    case_bool_decide as Hin; cbn [negb].
    + f_equal. apply filter_ext. intros k.
      repeat case_bool_decide; simpl; try done. by subst.
    + rewrite <- app_assoc. cbn [app]. f_equal. f_equal.
      apply filter_ext. intros k.
      repeat case_bool_decide; simpl; try done; set_solver.
Qed.

(** X17: the keys of the definitions map of a module are the names of the
    class and function definitions at the top of the module, each once, in
    the order in which the names first occur; a name that is defined again
    keeps its place. *)
Theorem X17_module_key_order (unparse : AST -> string) (body : list AST)
    (code_string : string) (file_path : option string) :
  (record_keys <$> field "module"
     (process_node unparse (Module body) code_string file_path)) =
  Some (first_occurrences (map node_name (direct_definitions body))).
Proof.
  rewrite unit_module. simpl. f_equal. unfold module_map, direct_definitions.
  rewrite fold_module_step_keys. simpl.
  induction (first_occurrences _) as [|k ks IH]; [done|]. simpl. by f_equal.
Qed.

(** ** Docstrings and exact copies *)

(** X18: a docstring that the record of a class or function definition
    holds is a text that is not empty: what [ast.get_docstring] returned for
    the definition. *)
Theorem X18_docstring_not_empty (unparse : AST -> string) (node : AST)
    (code_string : string) (file_path : option string) (v : pyval) :
  is_definition node = true →
  field "docstring" (process_node unparse node code_string file_path) = Some v →
  ∃ s, v = PStr s ∧ s ≠ EmptyString ∧ get_docstring (node_body node) = Some s.
Proof.
  intros Hdef. rewrite definition_docstring by done.
  destruct (get_docstring (node_body node)) as [[|c s]|]; simpl; try discriminate.
  intros [= <-]. by eexists.
Qed.

(** X18 at the class [Outer]. *)
Lemma X18_docstring_not_empty_witness :
  ∃ s, PStr "Outer class" = PStr s ∧ s ≠ EmptyString ∧
       get_docstring (node_body outer_class) = Some s.
Proof.
  apply (X18_docstring_not_empty header_unparse outer_class outer_source None);
    reflexivity.
Defined.

(** X19: a docstring literal of one line, without tab, that is not empty and
    does not start with a whitespace character is recorded as it is
    written. *)
Theorem X19_plain_docstring_verbatim (unparse : AST -> string) (node : AST)
    (code_string : string) (file_path : option string)
    (c : ascii) (s : string) (rest : list AST) :
  is_definition node = true →
  node_body node = Expr (Constant (CStr (String c s))) :: rest →
  is_whitespace c = false →
  plain_text (String c s) = true →
  field "docstring" (process_node unparse node code_string file_path)
    = Some (PStr (String c s)).
Proof.
  intros Hdef Hbody Hc Hplain. rewrite definition_docstring by done.
  rewrite Hbody. cbn [get_docstring truthy_text].
  rewrite cleandoc_plain; [reflexivity| |done].
  destruct (is_char c SPACE) eqn:Hspace; [|done].
  apply Ascii.eqb_eq in Hspace. by rewrite Hspace in Hc.
Qed.

(** X19 at the class [Outer]. *)
Lemma X19_plain_docstring_verbatim_witness :
  field "docstring" (process_node header_unparse outer_class outer_source None)
    = Some (PStr "Outer class").
Proof.
  by apply (X19_plain_docstring_verbatim header_unparse outer_class outer_source None
              "O"%char "uter class"
              [FunctionDef "method" [FunctionDef "inner" [OtherStmt "pass"] 4 (Some 5)]
                 3 (Some 5);
               ClassDef "Inner" [OtherStmt "pass"] 6 (Some 7);
               If [FunctionDef "hidden" [OtherStmt "pass"] 9 (Some 10)] []]).
Defined.

(** X20: on a host whose line separator is LF, a file without carriage
    return that parses comes back byte for byte: when the extraction and the
    rebuilding from the structure it gives return, the extraction has left
    the file system as it was, the text returned is the bytes of the file,
    the file at the output path holds them, and the file itself is as it was
    when the output path is another. *)
Theorem X20_exact_copy_of_lf_files (ast_parse : string -> result AST)
    (unparse : AST -> string) (json_loads : string -> result pyval)
    (json_dumps : option nat -> pyval -> string)
    (fs fs1 fs2 : filesystem) (path bytes out text : string) (body : list AST)
    (su : pyval) :
  path ≠ EmptyString →
  out ≠ path →
  fs !! path = Some bytes →
  no_carriage_return bytes = true →
  ast_parse bytes = Val (Module body) →
  extract_all_definitions ast_parse unparse path fs = (Val su, fs1) →
  rebuild_from_dict_or_json posix_linesep json_loads json_dumps su out fs1
    = (Val text, fs2) →
  fs1 = fs ∧
  text = bytes ∧
  fs2 !! out = Some bytes ∧
  fs2 !! path = Some bytes.
Proof.
  intros Hpath Hout Hfile Hcr Hparse Hextract Hrebuild.
  destruct (round_trip_posix ast_parse unparse json_loads json_dumps fs path bytes out
              body Hpath Hfile Hcr Hparse) as (su' & Hextract' & Hrebuild').
  rewrite Hextract' in Hextract. injection Hextract as -> ->.
  rewrite Hrebuild' in Hrebuild. injection Hrebuild as -> <-.
  split_and!; [done | done | apply lookup_insert_eq |].
  by rewrite lookup_insert_ne.
Qed.

(** X20 at a file with LF line ends. *)
Lemma X20_exact_copy_of_lf_files_witness :
  fst (rebuild_from_dict_or_json posix_linesep sample_loads sample_dumps
         (process_node header_unparse greet_tree greet_text (Some "plain.py"))
         "copy.py" plain_files) = Val greet_text ∧
  snd (rebuild_from_dict_or_json posix_linesep sample_loads sample_dumps
         (process_node header_unparse greet_tree greet_text (Some "plain.py"))
         "copy.py" plain_files) !! "copy.py" = Some greet_text ∧
  snd (rebuild_from_dict_or_json posix_linesep sample_loads sample_dumps
         (process_node header_unparse greet_tree greet_text (Some "plain.py"))
         "copy.py" plain_files) !! "plain.py" = Some greet_text.
Proof.
  split; [reflexivity|].
  apply (X20_exact_copy_of_lf_files sample_parse header_unparse sample_loads sample_dumps
           plain_files plain_files _ "plain.py" greet_text "copy.py" greet_text
           [FunctionDef "greet" [OtherStmt "return"] 1 (Some 2)]
           (process_node header_unparse greet_tree greet_text (Some "plain.py"))).
  - discriminate.
  - discriminate.
  - apply lookup_singleton_eq.
  - reflexivity.
  - reflexivity.
  - reflexivity.
  - reflexivity.
Defined.
